(** * A shallow embedding of the e-commerce REST backend

    The development follows the layout of the repository:

    - [Http]      : what a handler can do with a request (answer, or hand an
                    error to the catch-all responder);
    - [Validator] : [sanitizeInput] of the validator middleware;
    - [Services]  : the resource services written out by hand
                    (category, subcategory, brand, review, user, product);
    - [Shop]      : carts, products, orders and the checkout handlers;
    - [Validation]: the two validation middlewares; [Models]: the image
                    hooks and the virtual status of an order; [Account]: the
                    handlers of the logged user; [Server]: the chain the
                    application file puts in front of its first handler;
    - [ValidatorFacts], [ServerFacts], [ServicesFacts], [ShopFacts], [ValidationFacts],
      [ModelsFacts], [OrderFacts], [CheckoutFacts], [AccountFacts],
      [CatalogFacts] : what is proved of them.

    JavaScript [Number]s are modelled by [Z]: quantities are whole numbers and
    amounts are whole currency units; a statement that rests on amounts
    being whole, and within the integers a [Number] holds exactly, says
    so.  Identifiers (Mongo ObjectIds as they
    appear in [req.params]) are strings.  A collection is a finite map from
    identifiers to documents.  [Date.now()] is an explicit argument of every
    handler that reads the clock. *)

From Stdlib Require Import ZArith List Ascii String.
From stdpp Require Import gmap strings list fin_maps.

Set Warnings "-register-all".

Open Scope Z_scope.
Open Scope string_scope.

Abbreviation ObjectId := string (only parsing).

(** Sample identifiers, as the database generates them: 24 hexadecimal
    characters each. [cart9], [order2], [order9], [user9] and [productC] are in no
    sample collection. *)
Abbreviation cart1 := "c0a000000000000000000001".
Abbreviation cart9 := "c0a000000000000000000009".
Abbreviation order1 := "0de000000000000000000001".
Abbreviation order2 := "0de000000000000000000002".
Abbreviation order9 := "0de000000000000000000009".
Abbreviation user1 := "a5e000000000000000000001".
Abbreviation user9 := "a5e000000000000000000009".
Abbreviation productA := "fab00000000000000000000a".
Abbreviation productB := "fab00000000000000000000b".
Abbreviation productC := "fab00000000000000000000c".
Abbreviation product1 := "fab000000000000000000001".
Abbreviation product2 := "fab000000000000000000002".
Abbreviation product3 := "fab000000000000000000003".
Abbreviation brand1 := "b4a000000000000000000001".
Abbreviation category1 := "ca7000000000000000000001".

(* ===================================================================== *)
(** * Part I: the model                                                   *)
(* ===================================================================== *)

Module Http.

(** Values that reach [next(err)]: an [ApiError] built by a handler, or an
    exception raised while the handler ran ([express-async-handler] turns a
    rejected handler promise into [next(err)]). The class [ApiError]
    ([utils/apiError]) is not part of the sources; it is taken to keep the
    message and the status code its constructor receives. *)
Inductive JsError : Type :=
| ApiError (message : string) (statusCode : Z)
| ReferenceError (name : string)
| TypeError (message : string)
| SyntaxError (message : string)
| CastError (message : string)
| MongoError (message : string).

(** What a handler did with the request. *)
Inductive Outcome (B : Type) : Type :=
| Respond (status : Z) (body : B)
| Next (err : JsError).

Arguments Respond {B} status body.
Arguments Next {B} err.

Definition errorMessage (e : JsError) : string :=
  match e with
  | ApiError m _ => m
  | ReferenceError x => x +:+ " is not defined"
  | TypeError m => m
  | SyntaxError m => m
  | CastError m => m
  | MongoError m => m
  end.

(** Modelled from the spec: the catch-all responder
    ([middlewares/errorMiddleware], not part of the sources).  A Not-Found
    raised as [ApiError] is surfaced with the status it carries; every
    other error that propagates is answered with 500. *)
Definition globalError (e : JsError) : Z * string :=
  match e with
  | ApiError m code => (code, m)
  | _ => (500, errorMessage e)
  end.

(** Status code the client finally sees. *)
Definition httpStatus {B} (o : Outcome B) : Z :=
  match o with
  | Respond st _ => st
  | Next e => fst (globalError e)
  end.

(** Message of the error response, when the request ended in one. *)
Definition httpError {B} (o : Outcome B) : option string :=
  match o with
  | Respond _ _ => None
  | Next e => Some (snd (globalError e))
  end.

(** [contains msg s]: [s] occurs in [msg]. *)
Definition contains (msg s : string) : Prop :=
  exists pre post, msg = pre +:+ s +:+ post.

(** A Not-Found answer that names the identifier. *)
Definition notFoundNaming {B} (id : ObjectId) (o : Outcome B) : Prop :=
  httpStatus o = 404 /\ exists msg, httpError o = Some msg /\ contains msg id.

End Http.

Module Validator.

(** Request data as the body parser, the query parser and the router
    produce it. Objects keep their keys in insertion order. *)
Inductive Json : Type :=
| JNull
| JBool (b : bool)
| JNum (n : Z)
| JStr (s : string)
| JArr (items : list Json)
| JObj (props : list (string * Json)).

(** [obj[key] === "" || obj[key] === "undefined"] *)
Definition isBlank (v : Json) : bool :=
  match v with
  | JStr s => bool_decide (s = "") || bool_decide (s = "undefined")
  | _ => false
  end.

(** [typeof v === "object" && v !== null] *)
Definition isObject (v : Json) : bool :=
  match v with
  | JArr _ | JObj _ => true
  | _ => false
  end.

(** One turn of the [forEach] body, for the value [v] stored under a key;
    [rec] is the recursive call. *)
Definition sanitizeKey (rec : Json -> Json) (v : Json) : Json :=
  if isBlank v then JNull
  else match v with
       | JArr _ | JObj _ => rec v
       | _ => v
       end.

(** [sanitizeObject]: the object is updated in place, key by key
    ([Object.keys] of an array are its indices, of a primitive none). *)
Fixpoint sanitizeObject (obj : Json) : Json :=
  match obj with
  | JObj props =>
      JObj (List.map (fun kv => (fst kv, sanitizeKey sanitizeObject (snd kv))) props)
  | JArr items => JArr (List.map (sanitizeKey sanitizeObject) items)
  | _ => obj
  end.

(** Truthiness of a request part ([if (req.body) ...]). *)
Definition truthy (v : Json) : bool :=
  match v with
  | JNull => false
  | JBool b => b
  | JNum n => negb (Z.eqb n 0)
  | JStr s => negb (bool_decide (s = ""))
  | JArr _ | JObj _ => true
  end.

Record Request : Type := mkRequest {
  body : option Json;
  query : option Json;
  params : option Json
}.

Definition sanitizePart (part : option Json) : option Json :=
  match part with
  | Some v => if truthy v then Some (sanitizeObject v) else part
  | None => None
  end.

(** [sanitizeInput (req, res, next)]: rewrites the three parts and then
    calls [next()], so whatever runs next sees the rewritten request. *)
Definition sanitizeInput {R} (req : Request) (next : Request -> R) : R :=
  next {| body := sanitizePart (body req);
          query := sanitizePart (query req);
          params := sanitizePart (params req) |}.

(** The rewriting as the specification words it. [Rewritten v v'] relates
    the value of a property before and after: a blank string becomes
    [null], a nested object or array is rewritten property by property
    (same keys, same order), anything else stays as it is. *)
Inductive Rewritten : Json -> Json -> Prop :=
| rw_empty : Rewritten (JStr "") JNull
| rw_undefined : Rewritten (JStr "undefined") JNull
| rw_object props props' :
    Forall2 (fun kv kv' => fst kv = fst kv' /\ Rewritten (snd kv) (snd kv')) props props' ->
    Rewritten (JObj props) (JObj props')
| rw_array items items' :
    Forall2 Rewritten items items' ->
    Rewritten (JArr items) (JArr items')
| rw_other v :
    v <> JStr "" -> v <> JStr "undefined" -> isObject v = false ->
    Rewritten v v.

(** A whole request part: an object (or array) has every property
    rewritten; a part that is absent or not an object is not touched. *)
Definition PartRewritten (part part' : option Json) : Prop :=
  match part with
  | Some v => if isObject v then exists v', part' = Some v' /\ Rewritten v v'
              else part' = part
  | None => part' = None
  end.

End Validator.

Module Services.
Import Http Validator.

(** Values a handler puts into a query filter. *)
Inductive FilterValue : Type :=
| FUndefined
| FJson (v : Json)
| FNumber (n : option Z)          (* [None] is [NaN] *)
| FList (items : list string)
| FRegExp (source flags : string).

(** [s.includes(",")] *)
Fixpoint includesComma (s : string) : bool :=
  match s with
  | EmptyString => false
  | String c rest => bool_decide (c = ","%char) || includesComma rest
  end.

(** [s.split(",")] *)
Fixpoint splitComma (s : string) : list string :=
  match s with
  | EmptyString => [EmptyString]
  | String c rest =>
      if bool_decide (c = ","%char) then EmptyString :: splitComma rest
      else match splitComma rest with
           | piece :: pieces => String c piece :: pieces
           | [] => [String c EmptyString]
           end
  end.

(** [obj[key] = v] on an object kept as its list of properties. *)
Fixpoint setProp {A} (key : string) (v : A) (props : list (string * A)) : list (string * A) :=
  match props with
  | [] => [(key, v)]
  | (k, old) :: rest =>
      if bool_decide (k = key) then (key, v) :: rest
      else (k, old) :: setProp key v rest
  end.

Fixpoint getProp {A} (key : string) (props : list (string * A)) : option A :=
  match props with
  | [] => None
  | (k, v) :: rest => if bool_decide (k = key) then Some v else getProp key rest
  end.

(** Response bodies of the services. *)
Inductive Body (Doc : Type) : Type :=
| Data (data : Doc)                               (* [{ data: document }] *)
| DataMany (data : list Doc)                      (* [{ data: [documents] }] *)
| Listing (results : nat) (data : list Doc)       (* [{ results, data }] *)
| NoBody.                                         (* [send()] *)

Arguments Data {Doc} data.
Arguments DataMany {Doc} data.
Arguments Listing {Doc} results data.
Arguments NoBody {Doc}.

(** Why the database refuses a write: a value that cannot be cast to the
    type of its path, or one that is already taken under a unique index
    (the email of a user, the name of a category or of a brand). *)
Inductive Refusal : Type :=
| CastFailed (message : string)
| DuplicateKey (message : string).

Definition refusalError (r : Refusal) : JsError :=
  match r with
  | CastFailed m => CastError m
  | DuplicateKey m => MongoError m
  end.

(** A listing answered with 200 whose count is the length of its data. *)
Definition countsData {Doc} (o : Outcome (Body Doc)) : Prop :=
  exists data, o = Respond 200 (Listing (length data) data).

Section Models.

(** A stored document, and what the object-document mapper and the
    database do with it: evaluating one condition of a filter, applying
    an update payload, reading the price of a product, converting a
    query-string value to a number ([+v]) and compiling a pattern. *)
Context {Doc : Type}.
Variable holds : string -> FilterValue -> Doc -> bool.
Variable applyUpdate : list (string * FilterValue) -> Doc -> Doc.
Variable price : Doc -> Z.
Variable toNumber : string -> option Z.
Variable validRegExp : string -> bool.

(** The cast of one condition of a filter against the schema of the
    model: the message of the error when the value cannot be cast to the
    type of its path (a pattern on a Number path, an ill-formed identifier
    on a reference). What a later load gives once [document.save()] has
    stored a product that was just loaded: the load hook has rewritten its
    images, and the save persists them. Whether the database refuses an
    update of the document under an identifier, given the collection. *)
Variable castError : string -> FilterValue -> option string.
Variable resave : Doc -> Doc.
Variable refuses : ObjectId -> list (string * FilterValue) -> gmap ObjectId Doc -> option Refusal.

(** The documents that meet every condition of a filter. *)
Definition find (filter : list (string * FilterValue)) (M : gmap ObjectId Doc) : list Doc :=
  List.filter (fun d => forallb (fun c => holds (fst c) (snd c) d) filter)
              (List.map snd (map_to_list M)).

(** The first condition of a filter that cannot be cast, if any. *)
Fixpoint castFilter (filter : list (string * FilterValue)) : option string :=
  match filter with
  | [] => None
  | (key, value) :: rest =>
      match castError key value with
      | Some message => Some message
      | None => castFilter rest
      end
  end.

(** [Model.find(filter)] for a filter that comes from the request: the
    filter is cast first, and the query is rejected when that fails. An
    empty filter has nothing to cast. *)
Definition findCast (filter : list (string * FilterValue)) (M : gmap ObjectId Doc)
    : JsError + list Doc :=
  match castFilter filter with
  | Some message => inl (CastError message)
  | None => inr (find filter M)
  end.

Definition findById (id : ObjectId) (M : gmap ObjectId Doc) : option Doc := M !! id.

(** [Model.findByIdAndUpdate(id, update, { new: true })]: the promise is
    rejected, and nothing is written, when the database refuses the
    update; otherwise it resolves with the updated document, or with
    [null] when the identifier is not in the collection. *)
Definition findByIdAndUpdate (id : ObjectId) (update : list (string * FilterValue))
    (M : gmap ObjectId Doc) : JsError + option Doc * gmap ObjectId Doc :=
  match refuses id update M with
  | Some refusal => inl (refusalError refusal)
  | None =>
      match M !! id with
      | Some d => let d' := applyUpdate update d in inr (Some d', <[id := d']> M)
      | None => inr (None, M)
      end
  end.

(** [Model.findByIdAndDelete(id)] *)
Definition findByIdAndDelete (id : ObjectId) (M : gmap ObjectId Doc)
    : option Doc * gmap ObjectId Doc :=
  (M !! id, delete id M).

(** The properties of a request object, as filter or update payload. *)
Definition payload (v : Json) : list (string * FilterValue) :=
  match v with
  | JObj props => List.map (fun kv => (fst kv, FJson (snd kv))) props
  | _ => []
  end.

Definition field (key : string) (v : Json) : FilterValue :=
  match v with
  | JObj props => match getProp key props with Some x => FJson x | None => FUndefined end
  | _ => FUndefined
  end.

(** ** services/categoryService *)

Definition getCategories (Category : gmap ObjectId Doc) : Outcome (Body Doc) :=
  let documents := find [] Category in
  Respond 200 (Listing (length documents) documents).

(** The handler reads [req.params.id] for the lookup but builds the
    message from a variable [id] that is bound nowhere in its scope. *)
Definition getCategory (Category : gmap ObjectId Doc) (id : ObjectId) : Outcome (Body Doc) :=
  match findById id Category with
  | None => Next (ReferenceError "id")
  | Some document => Respond 200 (Data document)
  end.

Definition updateCategory (Category : gmap ObjectId Doc) (id : ObjectId) (body : Json)
    : Outcome (Body Doc) * gmap ObjectId Doc :=
  match findByIdAndUpdate id (payload body) Category with
  | inl e => (Next e, Category)
  | inr (None, M) => (Next (ApiError ("No document for this id " +:+ id) 404), M)
  | inr (Some document, M) => (Respond 200 (Data document), M)
  end.

Definition deleteCategory (Category : gmap ObjectId Doc) (id : ObjectId)
    : Outcome (Body Doc) * gmap ObjectId Doc :=
  match findByIdAndDelete id Category with
  | (None, M) => (Next (ApiError ("No document for this id " +:+ id) 404), M)
  | (Some _, M) => (Respond 204 NoBody, M)
  end.

(** ** subcategory service *)

Definition getSubCategories (SubCategory : gmap ObjectId Doc) (query : Json)
    : Outcome (Body Doc) :=
  match findCast (payload query) SubCategory with
  | inl e => Next e
  | inr documents => Respond 200 (Listing (length documents) documents)
  end.

Definition getSubCategory (SubCategory : gmap ObjectId Doc) (id : ObjectId)
    : Outcome (Body Doc) :=
  match findById id SubCategory with
  | None => Next (ApiError ("No document for this id " +:+ id) 404)
  | Some document => Respond 200 (Data document)
  end.

Definition updateSubCategory (SubCategory : gmap ObjectId Doc) (id : ObjectId) (body : Json)
    : Outcome (Body Doc) * gmap ObjectId Doc :=
  match findByIdAndUpdate id (payload body) SubCategory with
  | inl e => (Next e, SubCategory)
  | inr (None, M) => (Next (ApiError ("No document for this id " +:+ id) 404), M)
  | inr (Some document, M) => (Respond 200 (Data document), M)
  end.

Definition deleteSubCategory (SubCategory : gmap ObjectId Doc) (id : ObjectId)
    : Outcome (Body Doc) * gmap ObjectId Doc :=
  match findByIdAndDelete id SubCategory with
  | (None, M) => (Next (ApiError ("No document for this id " +:+ id) 404), M)
  | (Some _, M) => (Respond 204 NoBody, M)
  end.

(** ** brand service *)

Definition getBrands (Brand : gmap ObjectId Doc) : Outcome (Body Doc) :=
  let documents := find [] Brand in
  Respond 200 (Listing (length documents) documents).

Definition getBrand (Brand : gmap ObjectId Doc) (id : ObjectId) : Outcome (Body Doc) :=
  match findById id Brand with
  | None => Next (ApiError ("No document for this id " +:+ id) 404)
  | Some document => Respond 200 (Data document)
  end.

Definition updateBrand (Brand : gmap ObjectId Doc) (id : ObjectId) (body : Json)
    : Outcome (Body Doc) * gmap ObjectId Doc :=
  match findByIdAndUpdate id (payload body) Brand with
  | inl e => (Next e, Brand)
  | inr (None, M) => (Next (ApiError ("No document for this id " +:+ id) 404), M)
  | inr (Some document, M) => (Respond 200 (Data document), M)
  end.

Definition deleteBrand (Brand : gmap ObjectId Doc) (id : ObjectId)
    : Outcome (Body Doc) * gmap ObjectId Doc :=
  match findByIdAndDelete id Brand with
  | (None, M) => (Next (ApiError ("No document for this id " +:+ id) 404), M)
  | (Some _, M) => (Respond 204 NoBody, M)
  end.

(** ** review service

    The module never imports [ApiError], so building one raises a
    [ReferenceError] on the constructor name before any argument is
    evaluated. *)

Definition getReviews (Review : gmap ObjectId Doc) (query : Json) : Outcome (Body Doc) :=
  let product := field "productId" query in
  match findCast [("product", product)] Review with
  | inl e => Next e
  | inr documents => Respond 200 (Listing (length documents) documents)
  end.

(** [Review.find(...)] answers with an array, and an array is truthy
    even when it is empty: the Not-Found branch is never taken. *)
Definition getReview (Review : gmap ObjectId Doc) (params : Json) : Outcome (Body Doc) :=
  match findCast [("product", field "productId" params)] Review with
  | inl e => Next e
  | inr document => Respond 200 (DataMany document)
  end.

Definition updateReview (Review : gmap ObjectId Doc) (id : ObjectId) (body : Json)
    : Outcome (Body Doc) * gmap ObjectId Doc :=
  match findByIdAndUpdate id (payload body) Review with
  | inl e => (Next e, Review)
  | inr (None, M) => (Next (ReferenceError "ApiError"), M)
  | inr (Some document, M) => (Respond 200 (Data document), M)
  end.

Definition deleteReview (Review : gmap ObjectId Doc) (id : ObjectId)
    : Outcome (Body Doc) * gmap ObjectId Doc :=
  match findByIdAndDelete id Review with
  | (None, M) => (Next (ReferenceError "ApiError"), M)
  | (Some _, M) => (Respond 204 NoBody, M)
  end.

(** ** user service *)

Definition getUsers (User : gmap ObjectId Doc) : Outcome (Body Doc) :=
  let documents := find [] User in
  Respond 200 (Listing (length documents) documents).

Definition getUser (User : gmap ObjectId Doc) (id : ObjectId) : Outcome (Body Doc) :=
  match findById id User with
  | None => Next (ApiError ("No document for this id " +:+ id) 404)
  | Some document => Respond 200 (Data document)
  end.

Definition updateUser (User : gmap ObjectId Doc) (id : ObjectId) (body : Json)
    : Outcome (Body Doc) * gmap ObjectId Doc :=
  let update := [("fname", field "fname" body); ("lname", field "lname" body);
                 ("phone", field "phone" body); ("email", field "email" body);
                 ("profileImage", field "profileImage" body);
                 ("role", field "role" body)] in
  match findByIdAndUpdate id update User with
  | inl e => (Next e, User)
  | inr (None, M) => (Next (ApiError ("No document for this id " +:+ id) 404), M)
  | inr (Some document, M) => (Respond 200 (Data document), M)
  end.

Definition deleteUser (User : gmap ObjectId Doc) (id : ObjectId)
    : Outcome (Body Doc) * gmap ObjectId Doc :=
  match findByIdAndDelete id User with
  | (None, M) => (Next (ApiError ("No document for this id " +:+ id) 404), M)
  | (Some _, M) => (Respond 204 NoBody, M)
  end.

(** ** product service *)

(** One turn of the loop that rebuilds [req.query]; a pattern that does
    not compile makes [new RegExp] throw. The query is what the parser
    gives for a query string in which every parameter occurs once and
    plainly: keys with string values. (A parameter that is repeated or
    written with brackets comes as one array or object, which this list
    does not hold.) *)
Definition queryStep (acc : JsError + list (string * FilterValue)) (kv : string * string)
    : JsError + list (string * FilterValue) :=
  match acc with
  | inl e => inl e
  | inr query =>
      let '(key, value) := kv in
      if bool_decide (value = "") then inr query
      else if bool_decide (key = "min") || bool_decide (key = "max")
      then inr (setProp key (FNumber (toNumber value)) query)
      else if bool_decide (key = "category") || bool_decide (key = "brand")
              || bool_decide (key = "subcategory")
      then if includesComma value
           then inr (setProp key (FList (splitComma value)) query)
           else inr (setProp key (FJson (JStr value)) query)
      else if validRegExp value
           then inr (setProp key (FRegExp value "i") query)
           else inl (SyntaxError ("Invalid regular expression: /" +:+ value +:+ "/"))
  end.

(** Truthiness of what the loop can have stored under [min] or [max]. *)
Definition truthyBound (v : option FilterValue) : option Z :=
  match v with
  | Some (FNumber (Some n)) => if Z.eqb n 0 then None else Some n
  | _ => None
  end.

Definition getProducts (Product : gmap ObjectId Doc) (query : list (string * string))
    : Outcome (Body Doc) :=
  match fold_left queryStep query (inr []) with
  | inl e => Next e
  | inr query' =>
      match findCast query' Product with
      | inl e => Next e
      | inr documents =>
          let documents :=
            match truthyBound (getProp "min" query'), truthyBound (getProp "max" query') with
            | Some lo, Some hi =>
                List.filter (fun product => Z.leb lo (price product) && Z.leb (price product) hi)
                            documents
            | _, _ => documents
            end in
          Respond 200 (Listing (length documents) documents)
      end
  end.

Definition getProduct (Product : gmap ObjectId Doc) (id : ObjectId) : Outcome (Body Doc) :=
  match findById id Product with
  | None => Next (ApiError ("No document for this id " +:+ id) 404)
  | Some document => Respond 200 (Data document)
  end.

(** After the update the document is saved once more ([document.save()],
    not awaited): the answer is the document as the update loaded it, and
    what the collection gives for the identifier afterwards is what the
    save has stored. *)
Definition updateProduct (Product : gmap ObjectId Doc) (id : ObjectId) (body : Json)
    : Outcome (Body Doc) * gmap ObjectId Doc :=
  match findByIdAndUpdate id (payload body) Product with
  | inl e => (Next e, Product)
  | inr (None, M) => (Next (ApiError ("No document for this id " +:+ id) 404), M)
  | inr (Some document, M) => (Respond 200 (Data document), <[id := resave document]> M)
  end.

Definition deleteProduct (Product : gmap ObjectId Doc) (id : ObjectId)
    : Outcome (Body Doc) * gmap ObjectId Doc :=
  match findByIdAndDelete id Product with
  | (None, M) => (Next (ApiError ("No document for this id " +:+ id) 404), M)
  | (Some _, M) => (Respond 204 NoBody, M)
  end.

End Models.
End Services.

Module Shop.
Import Http.

(** ** Documents (models/cartModel, models/orderModel, models/productModel) *)

Record CartItem : Type := mkCartItem {
  product : ObjectId;
  quantity : Z;
  color : option string;
  price : Z
}.

Record Cart : Type := mkCart {
  cartItems : list CartItem;
  totalCartPrice : Z;
  totalPriceAfterDiscount : option Z;      (* absent until a coupon is applied *)
  cartUser : ObjectId
}.

Record Address : Type := mkAddress {
  details : option string;
  phone : option string;
  city : option string;
  postalCode : option string
}.

Inductive PaymentMethod : Type := card | cash.

Record Order : Type := mkOrder {
  user : ObjectId;
  orderItems : list CartItem;
  taxPrice : Z;
  shippingAddress : option Address;
  shippingPrice : Z;
  totalOrderPrice : Z;
  paymentMethodType : PaymentMethod;
  isPaid : bool;
  paidAt : option Z;
  isDelivered : bool;
  deliveredAt : option Z;
  createdAt : Z;                            (* [{ timestamps: true }] *)
  updatedAt : Z
}.

#[export] Instance CartItem_eq_dec : EqDecision CartItem.
Proof. solve_decision. Defined.
#[export] Instance Address_eq_dec : EqDecision Address.
Proof. solve_decision. Defined.
#[export] Instance PaymentMethod_eq_dec : EqDecision PaymentMethod.
Proof. solve_decision. Defined.
#[export] Instance Order_eq_dec : EqDecision Order.
Proof. solve_decision. Defined.

(** The paths a schema declares. The mapper casts every update, also
    those of a bulk write, against the schema of the model; no schema here
    changes the [strict] option from its default, under which a path that
    the schema does not declare is removed from the update. *)
Inductive SchemaType : Type := SString | SNumber | SObjectId | SArray | SDate.

(** [productSchema], with the two paths [{ timestamps: true }] adds. *)
Definition productSchema : list (string * SchemaType) :=
  [ ("title", SString); ("slug", SString); ("description", SString);
    ("quantity", SNumber); ("price", SNumber); ("images", SArray);
    ("category", SObjectId); ("subcategories", SArray); ("brand", SObjectId);
    ("ratingsAverage", SNumber); ("ratingsQuantity", SNumber);
    ("createdAt", SDate); ("updatedAt", SDate) ].

Definition inSchema (schema : list (string * SchemaType)) (path : string) : bool :=
  existsb (fun p => bool_decide (fst p = path)) schema.

Record User : Type := mkUser { email : string }.

(** The collections. A stored product is reduced to its numeric paths
    (dates in milliseconds): what the database holds under each path. *)
Record Db : Type := mkDb {
  carts : gmap ObjectId Cart;
  products : gmap ObjectId (gmap string Z);
  orders : gmap ObjectId Order;
  users : gmap ObjectId User
}.

(** ** Operations of the mapper *)

(** One [updateOne] of a bulk write: [{ filter: { _id }, update: { $inc } }]. *)
Record UpdateOne : Type := mkUpdateOne {
  filterId : ObjectId;
  inc : list (string * Z)
}.

(** Casting of an update against a schema, strict mode. *)
Definition castUpdate (schema : list (string * SchemaType)) (u : list (string * Z))
    : list (string * Z) :=
  List.filter (fun kv => inSchema schema (fst kv)) u.

(** [$inc]: a path that is missing counts from 0. *)
Definition applyInc (u : list (string * Z)) (doc : gmap string Z) : gmap string Z :=
  fold_left (fun d kv => <[fst kv := default 0 (d !! fst kv) + snd kv]> d) u doc.

(** One write of [Product.bulkWrite]: cast, stamp [updatedAt], apply to
    the document the filter selects, if there is one. *)
Definition writeOne (now : Z) (P : gmap ObjectId (gmap string Z)) (op : UpdateOne)
    : gmap ObjectId (gmap string Z) :=
  match P !! filterId op with
  | Some doc =>
      <[filterId op := <["updatedAt" := now]> (applyInc (castUpdate productSchema (inc op)) doc)]> P
  | None => P
  end.

Definition bulkWrite (now : Z) (ops : list UpdateOne) (P : gmap ObjectId (gmap string Z))
    : gmap ObjectId (gmap string Z) :=
  fold_left (writeOne now) ops P.

(** [Order.create(doc)] with the identifier [oid] the driver generated;
    the unique index on [_id] refuses an identifier already in use. *)
Definition createOrder (oid : ObjectId) (o : Order) (O : gmap ObjectId Order)
    : JsError + gmap ObjectId Order :=
  match O !! oid with
  | Some _ => inl (MongoError "E11000 duplicate key error")
  | None => inr (<[oid := o]> O)
  end.

(** [doc.save()] on a document loaded from the collection: nothing is
    written when no path was modified; otherwise [updatedAt] is stamped. *)
Definition save (now : Z) (stored edited : Order) : Order :=
  if bool_decide (edited = stored) then stored
  else mkOrder (user edited) (orderItems edited) (taxPrice edited) (shippingAddress edited)
         (shippingPrice edited) (totalOrderPrice edited) (paymentMethodType edited)
         (isPaid edited) (paidAt edited) (isDelivered edited) (deliveredAt edited)
         (createdAt edited) now.

(** What the mapper takes for an ObjectId when it casts a string: 24
    hexadecimal characters. (Older versions of the driver also took any
    string of 12 bytes; none takes a string of another form.) *)
Definition isHexDigit (c : ascii) : bool :=
  let n := nat_of_ascii c in
  (Nat.leb 48 n && Nat.leb n 57) || (Nat.leb 65 n && Nat.leb n 70)
  || (Nat.leb 97 n && Nat.leb n 102).

Fixpoint allHex (s : string) : bool :=
  match s with
  | EmptyString => true
  | String c rest => isHexDigit c && allHex rest
  end.

Definition isObjectId (id : string) : bool :=
  Nat.eqb (String.length id) 24 && allHex id.

(** [Model.findById(id)]: the identifier is cast before the collection is
    searched, and the promise is rejected with a [CastError] when it is
    not an ObjectId. The identifiers a collection holds are those the
    database gave its documents, so the cast can only fail for an
    identifier under which nothing is found. *)
Definition findById {A} (id : ObjectId) (M : gmap ObjectId A) : JsError + option A :=
  match M !! id with
  | Some document => inr (Some document)
  | None =>
      if isObjectId id then inr None
      else inl (CastError ("Cast to ObjectId failed for value " +:+ id))
  end.

(** [User.findOne({ email })] *)
Definition findOneByEmail (e : string) (U : gmap ObjectId User) : option (ObjectId * User) :=
  List.find (fun iu => bool_decide (email (snd iu) = e)) (map_to_list U).

(** ** Requests and responses of the order service *)

Record OrderRequest : Type := mkOrderRequest {
  cartId : ObjectId;                        (* [req.params.cartId] *)
  userId : ObjectId;                        (* [req.user._id] *)
  userName : option string;                 (* [req.user.name] *)
  userEmail : string;                       (* [req.user.email] *)
  shipping : option Address;                (* [req.body.shippingAddress] *)
  protocol : string;                        (* [req.protocol] *)
  host : string                             (* [req.get('host')] *)
}.

Record LineItem : Type := mkLineItem {
  name : option string;
  amount : Z;
  currency : string;
  lineQuantity : Z
}.

Record SessionParams : Type := mkSessionParams {
  line_items : list LineItem;
  mode : string;
  success_url : string;
  cancel_url : string;
  customer_email : string;
  client_reference_id : ObjectId;
  metadata : option Address
}.

(** The fields of a provider session that the service reads back. *)
Record Session : Type := mkSession {
  sessionCart : ObjectId;                   (* [client_reference_id] *)
  sessionMetadata : option Address;         (* [metadata] *)
  amount_total : Z;
  sessionEmail : string                     (* [customer_email] *)
}.

Record Event : Type := mkEvent {
  eventType : string;
  dataObject : Session
}.

Inductive Reply : Type :=
| Success (id : ObjectId) (data : Order)    (* [{ status: 'success', data: order }] *)
| SessionReply (session : Session)          (* [{ status: 'success', session }] *)
| Text (message : string)                   (* [send(message)] *)
| Received.                                 (* [{ received: true }] *)

(** Truthiness of a number. *)
Definition truthy (n : Z) : bool := negb (Z.eqb n 0).

(** [cart.totalPriceAfterDiscount ? cart.totalPriceAfterDiscount : cart.totalCartPrice] *)
Definition cartPrice (cart : Cart) : Z :=
  match totalPriceAfterDiscount cart with
  | Some discounted => if truthy discounted then discounted else totalCartPrice cart
  | None => totalCartPrice cart
  end.

(** The bulk operations built from the lines of a cart. *)
Definition bulkOption (items : list CartItem) : list UpdateOne :=
  List.map (fun item =>
              mkUpdateOne (product item)
                          [("quantity", - quantity item); ("sold", quantity item)])
           items.

(** [createCashOrder] *)
Definition createCashOrder (req : OrderRequest) (now : Z) (oid : ObjectId) (db : Db)
    : Outcome Reply * Db :=
  let taxPrice := 0 in
  let shippingPrice := 0 in
  match findById (cartId req) (carts db) with
  | inl e => (Next e, db)
  | inr None => (Next (ApiError ("There is no such cart with id " +:+ cartId req) 404), db)
  | inr (Some cart) =>
      let totalOrderPrice := cartPrice cart + taxPrice + shippingPrice in
      let order := mkOrder (userId req) (cartItems cart) 0 (shipping req) 0 totalOrderPrice
                           cash false None false None now now in
      match createOrder oid order (orders db) with
      | inl e => (Next e, db)
      | inr orders' =>
          let products' := bulkWrite now (bulkOption (cartItems cart)) (products db) in
          let carts' := delete (cartId req) (carts db) in
          (Respond 201 (Success oid order), mkDb carts' products' orders' (users db))
      end
  end.

Definition markPaid (now : Z) (o : Order) : Order :=
  mkOrder (user o) (orderItems o) (taxPrice o) (shippingAddress o) (shippingPrice o)
          (totalOrderPrice o) (paymentMethodType o) true (Some now)
          (isDelivered o) (deliveredAt o) (createdAt o) (updatedAt o).

Definition markDelivered (now : Z) (o : Order) : Order :=
  mkOrder (user o) (orderItems o) (taxPrice o) (shippingAddress o) (shippingPrice o)
          (totalOrderPrice o) (paymentMethodType o) (isPaid o) (paidAt o)
          true (Some now) (createdAt o) (updatedAt o).

(** [updateOrderToPaid] *)
Definition updateOrderToPaid (id : ObjectId) (now : Z) (db : Db) : Outcome Reply * Db :=
  match findById id (orders db) with
  | inl e => (Next e, db)
  | inr None => (Next (ApiError ("There is no such a order with this id:" +:+ id) 404), db)
  | inr (Some order) =>
      let updatedOrder := save now order (markPaid now order) in
      (Respond 200 (Success id updatedOrder),
       mkDb (carts db) (products db) (<[id := updatedOrder]> (orders db)) (users db))
  end.

(** [updateOrderToDelivered] *)
Definition updateOrderToDelivered (id : ObjectId) (now : Z) (db : Db) : Outcome Reply * Db :=
  match findById id (orders db) with
  | inl e => (Next e, db)
  | inr None => (Next (ApiError ("There is no such a order with this id:" +:+ id) 404), db)
  | inr (Some order) =>
      let updatedOrder := save now order (markDelivered now order) in
      (Respond 200 (Success id updatedOrder),
       mkDb (carts db) (products db) (<[id := updatedOrder]> (orders db)) (users db))
  end.

(** The integers a Number holds exactly ([Number.isSafeInteger]). *)
Definition safeInteger (n : Z) : bool := Z.leb (Z.abs n) 9007199254740991.

(** [createCardOrder]: runs detached from the request that started it; an
    exception ends it where it is raised. The provider reports the amount
    in hundredths. With amounts as whole numbers, [amount_total / 100] is
    the Number the code computes when the amount is a multiple of 100
    within the safe integers; for another amount the code stores a
    fraction, of which this total keeps the whole part. *)
Definition createCardOrder (session : Session) (now : Z) (oid : ObjectId) (db : Db)
    : option JsError * Db :=
  let oderPrice := amount_total session / 100 in
  match findById (sessionCart session) (carts db) with
  | inl e => (Some e, db)
  | inr cart =>
      match findOneByEmail (sessionEmail session) (users db), cart with
      | None, _ => (Some (TypeError "Cannot read properties of null (reading '_id')"), db)
      | Some _, None =>
          (Some (TypeError "Cannot read properties of null (reading 'cartItems')"), db)
      | Some (uid, _), Some cart =>
          let order := mkOrder uid (cartItems cart) 0 (sessionMetadata session) 0 oderPrice
                               card true (Some now) false None now now in
          match createOrder oid order (orders db) with
          | inl e => (Some e, db)
          | inr orders' =>
              let products' := bulkWrite now (bulkOption (cartItems cart)) (products db) in
              let carts' := delete (sessionCart session) (carts db) in
              (None, mkDb carts' products' orders' (users db))
          end
      end
  end.

(** The session the checkout asks the provider to open. For a whole total
    whose hundredfold is a safe integer, [totalOrderPrice * 100] is the
    Number the code computes. *)
Definition sessionParams (req : OrderRequest) (totalOrderPrice : Z) : SessionParams :=
  mkSessionParams
    [mkLineItem (userName req) (totalOrderPrice * 100) "egp" 1]
    "payment"
    (protocol req +:+ "://" +:+ host req +:+ "/orders")
    (protocol req +:+ "://" +:+ host req +:+ "/cart")
    (userEmail req) (cartId req) (shipping req).

Section Provider.

(** The payment provider's client library: creating a session, and
    checking a callback against the signing secret ([inl message] when
    the check throws). *)
Variable sessionsCreate : SessionParams -> JsError + Session.
Variable constructEvent : string -> option string -> option string -> string + Event.

(** [checkoutSession] *)
Definition checkoutSession (req : OrderRequest) (db : Db) : Outcome Reply :=
  let taxPrice := 0 in
  let shippingPrice := 0 in
  match findById (cartId req) (carts db) with
  | inl e => Next e
  | inr None => Next (ApiError ("There is no such cart with id " +:+ cartId req) 404)
  | inr (Some cart) =>
      let totalOrderPrice := cartPrice cart + taxPrice + shippingPrice in
      match sessionsCreate (sessionParams req totalOrderPrice) with
      | inl e => Next e
      | inr session => Respond 200 (SessionReply session)
      end
  end.

(** [webhookCheckout]; [secret] is [process.env.STRIPE_WEBHOOK_SECRET]. *)
Definition webhookCheckout (body : string) (sig secret : option string)
    (now : Z) (oid : ObjectId) (db : Db) : Outcome Reply * Db :=
  match constructEvent body sig secret with
  | inl message => (Respond 400 (Text ("Webhook Error: " +:+ message)), db)
  | inr event =>
      let db' := if bool_decide (eventType event = "checkout.session.completed")
                 then snd (createCardOrder (dataObject event) now oid db)
                 else db in
      (Respond 200 Received, db')
  end.

End Provider.

(** ** Sequences of order operations *)

Inductive OrderOp : Type :=
| CashOrder (req : OrderRequest) (now : Z) (oid : ObjectId)
| CardOrder (session : Session) (now : Z) (oid : ObjectId)
| ToPaid (id : ObjectId) (now : Z)
| ToDelivered (id : ObjectId) (now : Z).

Definition runOp (db : Db) (op : OrderOp) : Db :=
  match op with
  | CashOrder req now oid => snd (createCashOrder req now oid db)
  | CardOrder session now oid => snd (createCardOrder session now oid db)
  | ToPaid id now => snd (updateOrderToPaid id now db)
  | ToDelivered id now => snd (updateOrderToDelivered id now db)
  end.

Definition runOps (ops : list OrderOp) (db : Db) : Db := fold_left runOp ops db.

(** ** Sample data: the cart of the specification's example *)

Definition exampleCart : Cart :=
  mkCart [mkCartItem productA 2 None 10; mkCartItem productB 1 None 5] 25 None user1.

Definition exampleRequest : OrderRequest :=
  mkOrderRequest cart1 user1 None "user1@example.com" None "https" "shop.example".

(** Requests for a cart that does not exist: under an identifier that is
    an ObjectId, and under one that is not. *)
Definition unknownCartRequest : OrderRequest :=
  mkOrderRequest cart9 user1 None
                 "user1@example.com" None "https" "shop.example".

Definition malformedCartRequest : OrderRequest :=
  mkOrderRequest "cart-9" user1 None
                 "user1@example.com" None "https" "shop.example".

Definition exampleDb : Db :=
  mkDb {[ cart1 := exampleCart ]}
       (<[ productA := {[ "quantity" := 10; "price" := 10 ]} ]>
          {[ productB := {[ "quantity" := 4; "price" := 5; "sold" := 1 ]} ]})
       ∅
       {[ user1 := mkUser "user1@example.com" ]}.

Definition exampleOrder : Order :=
  mkOrder user1 (cartItems exampleCart) 0 None 0 25 cash false None false None 500 500.

Definition exampleOrders : Db :=
  mkDb ∅ ∅ {[ order1 := exampleOrder ]} {[ user1 := mkUser "user1@example.com" ]}.

(** ** Vocabulary of the properties *)

(** The order total as the specification words it: the discounted total
    when the cart has one, else the total before discount, plus a tax of 0
    and a shipping price of 0. *)
Definition statedTotal (cart : Cart) : Z :=
  match totalPriceAfterDiscount cart with
  | Some discounted => discounted
  | None => totalCartPrice cart
  end + 0 + 0.

(** Units of product [pid] on the lines of a cart. *)
Definition ordered (pid : ObjectId) (items : list CartItem) : Z :=
  foldr (fun item acc => (if bool_decide (product item = pid) then quantity item else 0) + acc)
        0 items.

(** Two orders that agree on every path but [paidAt] and [updatedAt]. *)
Definition sameButPaidStamps (a b : Order) : Prop :=
  user a = user b /\ orderItems a = orderItems b /\ taxPrice a = taxPrice b /\
  shippingAddress a = shippingAddress b /\ shippingPrice a = shippingPrice b /\
  totalOrderPrice a = totalOrderPrice b /\ paymentMethodType a = paymentMethodType b /\
  isPaid a = isPaid b /\ isDelivered a = isDelivered b /\
  deliveredAt a = deliveredAt b /\ createdAt a = createdAt b.

(** Two orders that agree on every path but [paidAt]. *)
Definition sameButPaidAt (a b : Order) : Prop :=
  sameButPaidStamps a b /\ updatedAt a = updatedAt b.

End Shop.

Module Validation.
Import Http Validator Services.

(** ** validatorMiddleware, validatorMiddlewareWithThrow *)

(** One entry of [validationResult(req).array()]. *)
Record FieldError : Type := mkFieldError {
  path : option string;
  param : option string;
  msg : string;
  value : Json
}.

(** [error.path || error.param], as a property key or inside a template:
    the empty string is falsy, and [undefined] prints as "undefined". *)
Definition fieldOf (e : FieldError) : string :=
  match path e with
  | Some p => if bool_decide (p = "") then default "undefined" (param e) else p
  | None => default "undefined" (param e)
  end.

(** Names every object literal inherits: [formattedErrors[name]] is truthy
    for them although nothing was stored, and what is found has no [push]. *)
Definition objectPrototypeKeys : list string :=
  [ "constructor"; "__defineGetter__"; "__defineSetter__"; "hasOwnProperty";
    "__lookupGetter__"; "__lookupSetter__"; "isPrototypeOf"; "propertyIsEnumerable";
    "toString"; "valueOf"; "__proto__"; "toLocaleString" ].

(** One turn of the [forEach] that groups the messages by field. *)
Definition formatStep (acc : JsError + list (string * list string)) (e : FieldError)
    : JsError + list (string * list string) :=
  match acc with
  | inl err => inl err
  | inr formattedErrors =>
      let key := fieldOf e in
      if existsb (fun k => bool_decide (k = key)) objectPrototypeKeys
      then inl (TypeError ("formattedErrors[" +:+ key +:+ "].push is not a function"))
      else match getProp key formattedErrors with
           | None => inr (setProp key [msg e] formattedErrors)
           | Some messages => inr (setProp key (List.app messages [msg e]) formattedErrors)
           end
  end.

Record FailBody : Type := mkFailBody {
  failStatus : string;
  failMessage : string;
  errors : list (string * list string);
  rawErrors : option (list FieldError)       (* only when NODE_ENV is development *)
}.

(** What a middleware did: answered, threw, or called [next()]. *)
Inductive Verdict : Type :=
| Rejected (status : Z) (body : FailBody)
| Failed (err : JsError)
| Passed.

Definition validatorMiddleware (found : list FieldError) (development : bool) : Verdict :=
  match found with
  | [] => Passed
  | _ =>
      match fold_left formatStep found (inr []) with
      | inl err => Failed err
      | inr formattedErrors =>
          Rejected 400 (mkFailBody "fail" "Validation failed" formattedErrors
                                   (if development then Some found else None))
      end
  end.

(** [parts.join(", ")] *)
Fixpoint joinWith (sep : string) (parts : list string) : string :=
  match parts with
  | [] => ""
  | [p] => p
  | p :: rest => p +:+ sep +:+ joinWith sep rest
  end.

Definition validatorMiddlewareWithThrow (found : list FieldError) : Verdict :=
  match found with
  | [] => Passed
  | _ =>
      let errorMessage :=
        joinWith ", " (List.map (fun e => fieldOf e +:+ ": " +:+ msg e) found) in
      Failed (ApiError ("Validation failed: " +:+ errorMessage) 400)
  end.

(** The messages recorded for a field, in the order they were found. *)
Definition messagesFor (field : string) (found : list FieldError) : list string :=
  List.map msg (List.filter (fun e => bool_decide (fieldOf e = field)) found).

(** What reading a key of [formattedErrors] gives: nothing for a field
    without messages, else its messages. *)
Definition recorded (messages : list string) : option (list string) :=
  match messages with
  | [] => None
  | _ => Some messages
  end.

(** No property, at any depth, holds a blank string. *)
Fixpoint clean (v : Json) : bool :=
  match v with
  | JObj props => forallb (fun kv => negb (isBlank (snd kv)) && clean (snd kv)) props
  | JArr items => forallb (fun x => negb (isBlank x) && clean x) items
  | _ => true
  end.

(** The keys of an object and the length of an array, at every depth. *)
Fixpoint shape (v : Json) : Json :=
  match v with
  | JObj props => JObj (List.map (fun kv => (fst kv, shape (snd kv))) props)
  | JArr items => JArr (List.map shape items)
  | _ => JNull
  end.

End Validation.

Module Models.
Import Shop.

(** ** Document hooks: [setImageURL] runs after a document is loaded
    ([post("init")]) and after it is saved ([post("save")]). *)

(** [s.slice(0, 4)] *)
Definition slice4 (s : string) : string := String.substring 0 4 s.

(** The hook on one image path, for a given URL prefix; an image that is
    absent or empty is falsy and left alone. *)
Definition prefixImage (prefix : string) (image : option string) : option string :=
  match image with
  | Some img =>
      if bool_decide (img = "") then image
      else if bool_decide (slice4 img = "http") then image
      else Some (prefix +:+ img)
  | None => None
  end.

(** models/brandModel and models/categoryModel: the prefix is fixed. *)
Definition setBrandImageURL (image : option string) : option string :=
  prefixImage "https://node-js-beige.vercel.app/uploads/brands/" image.

Definition setCategoryImageURL (image : option string) : option string :=
  prefixImage "https://node-js-beige.vercel.app/uploads/categories/" image.

(** models/userModel: the prefix starts with [process.env.BASE_URL]. *)
Definition setUserImageURL (BASE_URL : option string) (profileImage : option string)
    : option string :=
  prefixImage (default "undefined" BASE_URL +:+ "/uploads/users/") profileImage.

(** models/productModel: every element of [images] is mapped; an empty
    array is left alone. *)
Definition setProductImageURL (BASE_URL : option string) (images : option (list string))
    : option (list string) :=
  match images with
  | Some (first :: rest) =>
      Some (List.map (fun image =>
                        if bool_decide (slice4 image = "http") then image
                        else default "undefined" BASE_URL +:+ "/uploads/products/" +:+ image)
                     (first :: rest))
  | _ => images
  end.

(** ** The virtual [status] of an order *)

Definition status (o : Order) : string :=
  if isDelivered o then "Delivered"
  else if isPaid o then "Paid"
  else "Pending".

(** Two orders that record the same purchase: everything but the paid
    and delivered flags and the time stamps. *)
Definition sameSnapshot (a b : Order) : Prop :=
  user a = user b /\ orderItems a = orderItems b /\ taxPrice a = taxPrice b /\
  shippingAddress a = shippingAddress b /\ shippingPrice a = shippingPrice b /\
  totalOrderPrice a = totalOrderPrice b /\ paymentMethodType a = paymentMethodType b /\
  createdAt a = createdAt b.

(** How far an order has come. *)
Definition progress (o : Order) : nat :=
  if isDelivered o then 2%nat else if isPaid o then 1%nat else 0%nat.

End Models.

Module Account.
Import Http Validator Services.

Section Users.

Context {Doc : Type}.
Variable applyUpdate : list (string * FilterValue) -> Doc -> Doc.
Variable refuses : ObjectId -> list (string * FilterValue) -> gmap ObjectId Doc -> option Refusal.

(** [updateLoggedUserData]: the document of the logged user is updated and
    answered, whether it was found or not. *)
Definition updateLoggedUserData (User : gmap ObjectId Doc) (userId : ObjectId) (body : Json)
    : Outcome (option Doc) * gmap ObjectId Doc :=
  let update := [("fname", field "fname" body); ("lname", field "lname" body);
                 ("email", field "email" body); ("phone", field "phone" body);
                 ("profileImage", field "profileImage" body)] in
  match findByIdAndUpdate applyUpdate refuses userId update User with
  | inl e => (Next e, User)
  | inr (updatedUser, M) => (Respond 200 updatedUser, M)
  end.

(** [deleteLoggedUserData] *)
Definition deleteLoggedUserData (User : gmap ObjectId Doc) (userId : ObjectId)
    : Outcome string * gmap ObjectId Doc :=
  match findByIdAndUpdate applyUpdate refuses userId [("active", FJson (JBool false))] User with
  | inl e => (Next e, User)
  | inr (_, M) => (Respond 204 "Success", M)
  end.

(** [getLoggedUserData] puts the logged user's identifier in
    [req.params.id] and calls [next()]; the route goes on with [getUser]. *)
Definition getLoggedUserData {R} (userId : ObjectId) (next : ObjectId -> R) : R :=
  next userId.

End Users.

(** The value a query string gives for a key: that of its last
    occurrence with a value that is not empty. *)
Definition lastValue (key : string) (query : list (string * string)) : option string :=
  fold_left (fun found kv =>
               if bool_decide (fst kv = key) && negb (bool_decide (snd kv = ""))
               then Some (snd kv) else found)
            query None.

(** Two request bodies that carry the same values under the given keys. *)
Definition agreeOn (keys : list string) (a b : Json) : Prop :=
  Forall (fun k => field k a = field k b) keys.

End Account.

Module Server.
Import Http Validator.

(** ** The application file

    Middleware and handlers are called in the order in which the
    application registers them: [bodyParser.json()], [cors()], the handler
    mounted at [/api/serverless], the static files, the logger, the routes
    and the catch-all. What is written out here is the chain in front of
    the first handler. *)

Inductive Method : Type := GET | HEAD | POST | PUT | PATCH | DELETE | OPTIONS.

(** A request that carries a JSON entity, as it arrives: its method, the
    value its entity parses to, and its query as the application parses
    it before any middleware runs. *)
Record Incoming : Type := mkIncoming {
  method : Method;
  entity : Json;
  incomingQuery : Json
}.

(** How the chain in front of a handler ends. *)
Inductive Served (R : Type) : Type :=
| Handled (result : R)            (* the handler was called *)
| Preflight                       (* [cors()] answered the request itself *)
| Refused (err : JsError).        (* the body parser called [next(err)] *)

Arguments Handled {R} result.
Arguments Preflight {R}.
Arguments Refused {R} err.

(** [bodyParser.json()]: the parsed entity becomes [req.body]; in strict
    mode, the default, an entity that is neither an object nor an array
    is refused. *)
Definition bodyParserJson {R} (i : Incoming) (req : Request) (next : Request -> Served R)
    : Served R :=
  if isObject (entity i)
  then next {| body := Some (entity i); query := query req; params := params req |}
  else Refused (SyntaxError "Unexpected token in JSON").

(** [cors()]: a preflight request is answered with 204 and goes no
    further; any other request goes on with its headers set. *)
Definition cors {R} (i : Incoming) (req : Request) (next : Request -> Served R) : Served R :=
  match method i with
  | OPTIONS => Preflight
  | _ => next req
  end.

(** [api/serverless]: the handler reads nothing of the request but its
    method. *)
Definition serverless (i : Incoming) (req : Request) : Z * option string :=
  match method i with
  | OPTIONS => (200, None)
  | _ => (200, Some "Hello from Vercel")
  end.

(** [app.use('/api/serverless', handler)], behind the two middlewares
    registered before it: what a request for that path comes to. A
    handler mounted without route parameters finds [req.params] empty. *)
Definition serverlessRoute {R} (i : Incoming) (handler : Request -> R) : Served R :=
  let req := {| body := None; query := Some (incomingQuery i); params := Some (JObj []) |} in
  bodyParserJson i req (fun req => cors i req (fun req => Handled (handler req))).

(** What the application answers to a request under [/api/serverless]. *)
Definition application (i : Incoming) : Served (Z * option string) :=
  serverlessRoute i (serverless i).

(** A request that posts [{ "name": "" }]. *)
Definition blankNameRequest : Incoming :=
  mkIncoming POST (JObj [("name", JStr "")]) (JObj []).

End Server.

(* ===================================================================== *)
(** * Part II: properties                                                 *)
(* ===================================================================== *)

Module ValidatorFacts.
Import Validator.

(** Induction over request data, with the hypothesis available for every
    element of an array and every property value of an object. *)
Section JsonInduction.
Variable P : Json -> Prop.
Hypothesis HNull : P JNull.
Hypothesis HBool : forall b, P (JBool b).
Hypothesis HNum : forall n, P (JNum n).
Hypothesis HStr : forall s, P (JStr s).
Hypothesis HArr : forall items, Forall P items -> P (JArr items).
Hypothesis HObj : forall props, Forall (fun kv => P (snd kv)) props -> P (JObj props).

Fixpoint Json_nested_ind (v : Json) : P v :=
  match v with
  | JNull => HNull
  | JBool b => HBool b
  | JNum n => HNum n
  | JStr s => HStr s
  | JArr items =>
      HArr items
        ((fix each (l : list Json) : Forall P l :=
            match l with
            | [] => Stdlib.Lists.List.Forall_nil P
            | x :: rest => @Stdlib.Lists.List.Forall_cons _ P x rest (Json_nested_ind x) (each rest)
            end) items)
  | JObj props =>
      HObj props
        ((fix each (l : list (string * Json)) : Forall (fun kv => P (snd kv)) l :=
            match l with
            | [] => Stdlib.Lists.List.Forall_nil _
            | (k, x) :: rest =>
                @Stdlib.Lists.List.Forall_cons _ (fun kv => P (snd kv)) (k, x) rest
                  (Json_nested_ind x) (each rest)
            end) props)
  end.
End JsonInduction.

Lemma isBlank_spec v : isBlank v = true <-> v = JStr "" \/ v = JStr "undefined".
Proof.
  destruct v; simpl; try (split; [discriminate | intros [H | H]; discriminate]).
  rewrite orb_true_iff, !bool_decide_eq_true.
  split; intros [H | H]; [left | right | left | right]; congruence.
Qed.

Lemma sanitizeKey_object rec v : isObject v = true -> sanitizeKey rec v = rec v.
Proof. destruct v; simpl; try discriminate; reflexivity. Qed.

Lemma sanitizeKey_plain rec v :
  isBlank v = false -> isObject v = false -> sanitizeKey rec v = v.
Proof.
  unfold sanitizeKey. intros ->. destruct v; simpl; try discriminate; reflexivity.
Qed.

(** Each stored value is rewritten the way the specification words it. *)
Lemma sanitizeKey_Rewritten : forall v, Rewritten v (sanitizeKey sanitizeObject v).
Proof.
  induction v using Json_nested_ind.
  - apply rw_other; [discriminate | discriminate | reflexivity].
  - apply rw_other; [discriminate | discriminate | reflexivity].
  - apply rw_other; [discriminate | discriminate | reflexivity].
  - destruct (isBlank (JStr s)) eqn:Hb.
    + unfold sanitizeKey. rewrite Hb.
      apply isBlank_spec in Hb as [Hs | Hs]; inversion Hs; subst; constructor.
    + rewrite sanitizeKey_plain by (assumption || reflexivity).
      apply rw_other; [| | reflexivity];
        intros Heq; assert (isBlank (JStr s) = true) by (apply isBlank_spec; auto);
        congruence.
  - rewrite sanitizeKey_object by reflexivity. simpl.
    apply rw_array. induction H as [| x rest Hx Hrest IH]; simpl; constructor; auto.
  - rewrite sanitizeKey_object by reflexivity. simpl.
    apply rw_object. induction H as [| kv rest Hx Hrest IH]; simpl; constructor; auto.
Qed.

(** The specification leaves no choice: the rewritten value is unique. *)
Lemma Rewritten_unique : forall v v', Rewritten v v' -> v' = sanitizeKey sanitizeObject v.
Proof.
  induction v using Json_nested_ind; intros v' Hrw.
  - inversion Hrw; subst; reflexivity.
  - inversion Hrw; subst; reflexivity.
  - inversion Hrw; subst; reflexivity.
  - inversion Hrw; subst; try reflexivity.
    rewrite sanitizeKey_plain; [reflexivity | | reflexivity].
    destruct (isBlank (JStr s)) eqn:Hb; [| reflexivity].
    apply isBlank_spec in Hb as [Hs | Hs]; contradiction.
  - inversion Hrw as [ | | | items0 items' Hall | v0 _ _ Hobj]; subst;
      [| discriminate Hobj].
    rewrite sanitizeKey_object by reflexivity. simpl. f_equal.
    clear Hrw. revert items' Hall.
    induction H as [| x rest Hx Hrest IH]; intros items' Hall;
      inversion Hall; subst; simpl; [reflexivity |].
    f_equal; auto.
  - inversion Hrw as [ | | props0 props' Hall | | v0 _ _ Hobj]; subst;
      [| discriminate Hobj].
    rewrite sanitizeKey_object by reflexivity. simpl. f_equal.
    clear Hrw. revert props' Hall.
    induction H as [| kv rest Hx Hrest IH]; intros props' Hall;
      inversion Hall as [| kv0 kv' l l' [Hk Hv] Hl]; subst; simpl; [reflexivity |].
    f_equal; [| auto].
    destruct kv' as [k' x']; simpl in *. rewrite Hk. f_equal. auto.
Qed.

Lemma sanitizePart_PartRewritten part : PartRewritten part (sanitizePart part).
Proof.
  destruct part as [v |]; simpl; [| reflexivity].
  destruct (isObject v) eqn:Hobj.
  - assert (truthy v = true) as -> by (destruct v; simpl in *; congruence).
    exists (sanitizeObject v). split; [reflexivity |].
    rewrite <- (sanitizeKey_object sanitizeObject v Hobj). apply sanitizeKey_Rewritten.
  - destruct (truthy v); [| reflexivity].
    destruct v; simpl in *; congruence.
Qed.

(** C10 (amended). Where it is placed in a chain of handlers,
    [sanitizeInput] hands to whatever runs next a request in which every
    property of the body, the query and the route parameters, through
    nested objects and arrays, that held the empty string or the string
    "undefined" holds [null], and every other property value is what it
    was; it always goes on to the next handler. *)
Theorem sanitizeInput_rewrites_blank_properties :
  forall (R : Type) (req : Request) (next : Request -> R),
  exists req',
    sanitizeInput req next = next req' /\
    PartRewritten (body req) (body req') /\
    PartRewritten (query req) (query req') /\
    PartRewritten (params req) (params req').
Proof.
  intros R req next.
  exists (mkRequest (sanitizePart (body req)) (sanitizePart (query req))
                    (sanitizePart (params req))).
  repeat split; simpl; apply sanitizePart_PartRewritten.
Qed.

(** A body with a nested object and an array. *)
Example sanitizeObject_sample :
  sanitizeObject
    (JObj [("name", JStr ""); ("slug", JStr "undefined"); ("price", JNum 0);
           ("tags", JArr [JStr "a"; JStr ""]);
           ("dims", JObj [("w", JStr "undefined"); ("h", JStr "2")])])
  = JObj [("name", JNull); ("slug", JNull); ("price", JNum 0);
          ("tags", JArr [JStr "a"; JNull]);
          ("dims", JObj [("w", JNull); ("h", JStr "2")])].
Proof. reflexivity. Qed.

End ValidatorFacts.

Module ServerFacts.
Import Http Validator Server.

(** A request that is not a preflight and carries an object reaches the
    handler mounted at [/api/serverless] with its entity as its body,
    property for property. *)
Lemma serverlessRoute_hands_over {R} (i : Incoming) (handler : Request -> R) :
  method i <> OPTIONS -> isObject (entity i) = true ->
  serverlessRoute i handler
  = Handled (handler {| body := Some (entity i); query := Some (incomingQuery i);
                        params := Some (JObj []) |}).
Proof.
  intros Hmethod Hentity. unfold serverlessRoute, bodyParserJson, cors.
  rewrite Hentity. simpl. destruct (method i); congruence.
Qed.

Lemma blank_not_rewritten_to_itself : ~ Rewritten (JStr "") (JStr "").
Proof. intros H. inversion H. congruence. Qed.

(** C10 as stated fails: the application calls the handler mounted at
    [/api/serverless] with no [sanitizeInput] in front of it, so that a
    request posting [{ "name": "" }] reaches a handler with the empty
    string still under [name]. *)
Lemma handler_runs_on_request_not_rewritten :
  ~ (forall (i : Incoming) (req : Request),
       serverlessRoute i (fun req => req) = Handled req ->
       PartRewritten (Some (entity i)) (body req)).
Proof.
  intros H.
  specialize (H blankNameRequest
                {| body := Some (JObj [("name", JStr "")]); query := Some (JObj []);
                   params := Some (JObj []) |} eq_refl).
  simpl in H. destruct H as (v' & [= <-] & Hrw).
  inversion Hrw as [| | props props' Hprops | |]; subst.
  - apply Forall2_cons_1 in Hprops as [[_ Hname] _].
    exact (blank_not_rewritten_to_itself Hname).
  - discriminate.
Qed.

End ServerFacts.

Module ServicesFacts.
Import Http Validator Services.

Lemma append_empty_r (s : string) : s +:+ "" = s.
Proof.
  induction s as [| c s IH]; [reflexivity |].
  change (String c (s +:+ "") = String c s). congruence.
Qed.

Lemma contains_suffix (pre id : string) : contains (pre +:+ id) id.
Proof. exists pre, "". now rewrite append_empty_r. Qed.

Lemma notFound_message {B} id :
  notFoundNaming id (@Next B (ApiError ("No document for this id " +:+ id) 404)).
Proof.
  split; [reflexivity |].
  eexists; split; [reflexivity |]. apply contains_suffix.
Qed.

Section Models.
Context {Doc : Type}.
Variable holds : string -> FilterValue -> Doc -> bool.
Variable applyUpdate : list (string * FilterValue) -> Doc -> Doc.
Variable price : Doc -> Z.
Variable toNumber : string -> option Z.
Variable validRegExp : string -> bool.
Variable castError : string -> FilterValue -> option string.
Variable resave : Doc -> Doc.
Variable refuses : ObjectId -> list (string * FilterValue) -> gmap ObjectId Doc -> option Refusal.

Ltac unknown_id H :=
  unfold findById, findByIdAndUpdate, findByIdAndDelete; rewrite ?H;
  try (split; [| reflexivity]); apply notFound_message.

(** An update the database refuses is answered with 500, whichever the
    reason. *)
Lemma refusal_status {B} (r : Refusal) : httpStatus (@Next B (refusalError r)) = 500.
Proof. destruct r; reflexivity. Qed.

Lemma findByIdAndUpdate_accepted id update (M : gmap ObjectId Doc) :
  refuses id update M = None ->
  findByIdAndUpdate applyUpdate refuses id update M
  = match M !! id with
    | Some d => inr (Some (applyUpdate update d), <[id := applyUpdate update d]> M)
    | None => inr (None, M)
    end.
Proof. unfold findByIdAndUpdate. now intros ->. Qed.

Lemma findByIdAndUpdate_refused id update (M : gmap ObjectId Doc) r :
  refuses id update M = Some r ->
  findByIdAndUpdate applyUpdate refuses id update M = inl (refusalError r).
Proof. unfold findByIdAndUpdate. now intros ->. Qed.

(** The handlers that do signal Not-Found with the identifier, leaving
    the collection as it was. *)
Lemma getSubCategory_unknown (M : gmap ObjectId Doc) id :
  M !! id = None -> notFoundNaming id (getSubCategory M id).
Proof. intros H. unfold getSubCategory. unknown_id H. Qed.

Lemma getBrand_unknown (M : gmap ObjectId Doc) id :
  M !! id = None -> notFoundNaming id (getBrand M id).
Proof. intros H. unfold getBrand. unknown_id H. Qed.

Lemma getUser_unknown (M : gmap ObjectId Doc) id :
  M !! id = None -> notFoundNaming id (getUser M id).
Proof. intros H. unfold getUser. unknown_id H. Qed.

Lemma getProduct_unknown (M : gmap ObjectId Doc) id :
  M !! id = None -> notFoundNaming id (getProduct M id).
Proof. intros H. unfold getProduct. unknown_id H. Qed.

Lemma update_unknown (M : gmap ObjectId Doc) id body :
  M !! id = None ->
  (forall update, refuses id update M = None) ->
  Forall (fun r : Outcome (Body Doc) * gmap ObjectId Doc =>
            notFoundNaming id (fst r) /\ snd r = M)
         [ updateCategory applyUpdate refuses M id body;
           updateSubCategory applyUpdate refuses M id body;
           updateBrand applyUpdate refuses M id body;
           updateUser applyUpdate refuses M id body;
           updateProduct applyUpdate resave refuses M id body ].
Proof.
  intros H Hacc.
  repeat (first [apply Forall_nil_2 | apply Forall_cons_2]);
    unfold updateCategory, updateSubCategory, updateBrand, updateUser, updateProduct;
    rewrite findByIdAndUpdate_accepted by apply Hacc;
    rewrite H; simpl; (split; [| reflexivity]); apply notFound_message.
Qed.

Lemma delete_unknown (M : gmap ObjectId Doc) id :
  M !! id = None ->
  Forall (fun r : Outcome (Body Doc) * gmap ObjectId Doc =>
            notFoundNaming id (fst r) /\ snd r = M)
         [ deleteCategory M id; deleteSubCategory M id; deleteBrand M id;
           deleteUser M id; deleteProduct M id ].
Proof.
  intros H.
  repeat (first [apply Forall_nil_2 | apply Forall_cons_2]);
    unfold deleteCategory, deleteSubCategory, deleteBrand, deleteUser, deleteProduct,
           findByIdAndDelete;
    rewrite H; simpl; (split; [apply notFound_message | now apply delete_id]).
Qed.

(** The handlers that do not: looking up a category that does not exist
    raises a [ReferenceError], and so do updating and deleting a review
    that does not exist; getting reviews never fails. *)
Lemma getCategory_unknown (M : gmap ObjectId Doc) id :
  M !! id = None ->
  getCategory M id = Next (ReferenceError "id") /\ httpStatus (getCategory M id) = 500.
Proof. intros H. unfold getCategory, findById. rewrite H. split; reflexivity. Qed.

Lemma getReview_never_not_found (M : gmap ObjectId Doc) params :
  httpStatus (getReview holds castError M params) <> 404.
Proof.
  unfold getReview, findCast.
  destruct (castFilter castError _); simpl; discriminate.
Qed.

Lemma updateReview_unknown (M : gmap ObjectId Doc) id body :
  M !! id = None -> httpStatus (fst (updateReview applyUpdate refuses M id body)) = 500.
Proof.
  intros H. unfold updateReview, findByIdAndUpdate.
  destruct (refuses id (payload body) M) as [r |]; [apply refusal_status |].
  rewrite H. reflexivity.
Qed.

Lemma deleteReview_unknown (M : gmap ObjectId Doc) id :
  M !! id = None -> httpStatus (fst (deleteReview M id)) = 500.
Proof. intros H. unfold deleteReview, findByIdAndDelete. rewrite H. reflexivity. Qed.

(** The loop that rebuilds the product query only fails on a pattern
    that does not compile. *)
Lemma queryStep_valid (query : list (string * string)) :
  Forall (fun kv => validRegExp (snd kv) = true) query ->
  forall acc, exists query',
    fold_left (queryStep toNumber validRegExp) query (inr acc) = inr query'.
Proof.
  induction 1 as [| [key value] rest Hkv Hrest IH]; intros acc; simpl.
  - eauto.
  - simpl in Hkv. rewrite Hkv.
    repeat match goal with |- context [if ?b then _ else _] => destruct b end;
      apply IH.
Qed.

Lemma queryStep_thrown (query : list (string * string)) e :
  fold_left (queryStep toNumber validRegExp) query (inl e) = inl e.
Proof. induction query as [| kv rest IH]; simpl; [reflexivity | exact IH]. Qed.

(** Otherwise it ends in the [SyntaxError] of [new RegExp]. *)
Lemma queryStep_outcome (query : list (string * string)) :
  forall acc,
    (exists query', fold_left (queryStep toNumber validRegExp) query (inr acc) = inr query') \/
    (exists m, fold_left (queryStep toNumber validRegExp) query (inr acc)
               = inl (SyntaxError m)).
Proof.
  induction query as [| [key value] rest IH]; intros acc; simpl.
  - left. eauto.
  - repeat match goal with |- context [if ?b then _ else _] => destruct b end;
      try apply IH.
    right. eexists. apply queryStep_thrown.
Qed.

Lemma findCast_casts filter (M : gmap ObjectId Doc) :
  castFilter castError filter = None ->
  findCast holds castError filter M = inr (find holds filter M).
Proof. unfold findCast. now intros ->. Qed.

Lemma findCast_outcome filter (M : gmap ObjectId Doc) :
  findCast holds castError filter M = inr (find holds filter M) \/
  exists m, findCast holds castError filter M = inl (CastError m).
Proof. unfold findCast. destruct (castFilter castError filter); eauto. Qed.

Lemma getProducts_counts (M : gmap ObjectId Doc) (query : list (string * string)) query' :
  fold_left (queryStep toNumber validRegExp) query (inr []) = inr query' ->
  castFilter castError query' = None ->
  countsData (getProducts holds price toNumber validRegExp castError M query).
Proof.
  intros Hfold Hcast. unfold getProducts. rewrite Hfold, (findCast_casts _ _ Hcast).
  eexists. reflexivity.
Qed.

End Models.

(** C4 (the code departs from the claim). A category collection holding
    one document, asked for an identifier it does not hold: the request
    ends in a [ReferenceError], answered with 500, and the answer does not
    name the identifier. On the same collection taken as reviews, getting
    answers 200, and updating and deleting answer 500. *)
Theorem unknown_id_category_and_review :
  let M : gmap ObjectId string := {[ "650000000000000000000001" := "Phones" ]} in
  let id := "650000000000000000000002" in
  let holds := fun (_ : string) (_ : FilterValue) (_ : string) => true in
  let applyUpdate := fun (_ : list (string * FilterValue)) (d : string) => d in
  let castError := fun (_ : string) (_ : FilterValue) => @None string in
  let refuses := fun (_ : ObjectId) (_ : list (string * FilterValue))
                     (_ : gmap ObjectId string) => @None Refusal in
  M !! id = None /\
  getCategory M id = Next (ReferenceError "id") /\
  httpStatus (getCategory M id) = 500 /\
  httpError (getCategory M id) = Some "id is not defined" /\
  ~ notFoundNaming id (getCategory M id) /\
  httpStatus (getReview holds castError M (JObj [("id", JStr id)])) = 200 /\
  httpStatus (fst (updateReview applyUpdate refuses M id (JObj []))) = 500 /\
  httpStatus (fst (deleteReview M id)) = 500.
Proof.
  cbv zeta.
  assert (({[ "650000000000000000000001" := "Phones" ]} : gmap ObjectId string)
            !! "650000000000000000000002" = None) as Hnone
    by (apply lookup_singleton_ne; discriminate).
  split; [exact Hnone |].
  unfold getCategory, updateReview, deleteReview, findById, findByIdAndUpdate,
         findByIdAndDelete.
  rewrite Hnone.
  repeat split; try reflexivity.
  intros [Hst _]. discriminate Hst.
Qed.

(** C8. Every list handler that answers a listing answers 200 with
    [results] equal to the number of documents in [data]: the unfiltered
    listings always do, the filtered ones whenever their filter can be cast
    (the product listing whenever, besides, its patterns compile), and a
    request of theirs that is not answered so ends in the error of the cast
    or of the pattern. A filter that matches nothing gives 200 with
    [results] 0 and no data, not an error. *)
Theorem list_results_is_data_length :
  forall (Doc : Type) (holds : string -> FilterValue -> Doc -> bool) (price : Doc -> Z)
         (toNumber : string -> option Z) (validRegExp : string -> bool)
         (castError : string -> FilterValue -> option string)
         (M : gmap ObjectId Doc) (query : Json) (productQuery : list (string * string)),
    countsData (getCategories holds M) /\
    countsData (getBrands holds M) /\
    countsData (getUsers holds M) /\
    (countsData (getSubCategories holds castError M query) \/
     exists m, getSubCategories holds castError M query = Next (CastError m)) /\
    (castFilter castError (payload query) = None ->
     countsData (getSubCategories holds castError M query)) /\
    (countsData (getReviews holds castError M query) \/
     exists m, getReviews holds castError M query = Next (CastError m)) /\
    (castFilter castError [("product", field "productId" query)] = None ->
     countsData (getReviews holds castError M query)) /\
    (NoDup (List.map fst productQuery) ->
     countsData (getProducts holds price toNumber validRegExp castError M productQuery) \/
     (exists m, getProducts holds price toNumber validRegExp castError M productQuery
                = Next (SyntaxError m)) \/
     (exists m, getProducts holds price toNumber validRegExp castError M productQuery
                = Next (CastError m))) /\
    (NoDup (List.map fst productQuery) ->
     forall query',
       fold_left (queryStep toNumber validRegExp) productQuery (inr []) = inr query' ->
       castFilter castError query' = None ->
       countsData (getProducts holds price toNumber validRegExp castError M productQuery)) /\
    (find holds [] M = [] ->
     getCategories holds M = Respond 200 (Listing 0 []) /\
     getBrands holds M = Respond 200 (Listing 0 []) /\
     getUsers holds M = Respond 200 (Listing 0 [])) /\
    (castFilter castError (payload query) = None ->
     find holds (payload query) M = [] ->
     getSubCategories holds castError M query = Respond 200 (Listing 0 [])) /\
    (castFilter castError [("product", field "productId" query)] = None ->
     find holds [("product", field "productId" query)] M = [] ->
     getReviews holds castError M query = Respond 200 (Listing 0 [])).
Proof.
  intros Doc holds price toNumber validRegExp castError M query productQuery.
  repeat match goal with |- _ /\ _ => split end;
    try (eexists; reflexivity).
  - unfold getSubCategories.
    destruct (findCast_outcome holds castError (payload query) M) as [-> | [m ->]];
      [left; eexists; reflexivity | right; eauto].
  - intros Hcast. unfold getSubCategories. rewrite (findCast_casts holds castError _ _ Hcast).
    eexists. reflexivity.
  - unfold getReviews.
    destruct (findCast_outcome holds castError [("product", field "productId" query)] M)
      as [-> | [m ->]]; [left; eexists; reflexivity | right; eauto].
  - intros Hcast. unfold getReviews. rewrite (findCast_casts holds castError _ _ Hcast).
    eexists. reflexivity.
  - intros _. unfold getProducts.
    destruct (queryStep_outcome toNumber validRegExp productQuery [])
      as [[query' ->] | [m ->]]; [| right; left; eauto].
    destruct (findCast_outcome holds castError query' M) as [-> | [m ->]];
      [left; eexists; reflexivity | right; right; eauto].
  - intros _ query' Hfold Hcast. eapply getProducts_counts; eassumption.
  - intros H. unfold getCategories, getBrands, getUsers. rewrite H. auto.
  - intros Hcast H. unfold getSubCategories.
    rewrite (findCast_casts holds castError _ _ Hcast), H. reflexivity.
  - intros Hcast H. unfold getReviews.
    rewrite (findCast_casts holds castError _ _ Hcast), H. reflexivity.
Qed.

(** The listing theorem at an empty collection, at a filter that casts
    and at a product query with one pattern. *)
Lemma list_results_witness :
  let holds := fun (_ : string) (_ : FilterValue) (_ : Z) => true in
  let castError := fun (key : string) (_ : FilterValue) =>
                     if bool_decide (key = "price") then Some "Cast to Number failed"
                     else None in
  getCategories holds (∅ : gmap ObjectId Z) = Respond 200 (Listing 0 []) /\
  getSubCategories holds castError (∅ : gmap ObjectId Z) (JObj [("category", JStr category1)])
    = Respond 200 (Listing 0 []) /\
  countsData (getProducts holds (fun d => d) (fun _ => Some 1) (fun _ => true) castError
                          (∅ : gmap ObjectId Z) [("title", "phone")]).
Proof.
  cbv zeta.
  destruct (list_results_is_data_length Z (fun _ _ _ => true) (fun d => d)
              (fun _ => Some 1) (fun _ => true)
              (fun key _ => if bool_decide (key = "price") then Some "Cast to Number failed"
                            else None)
              ∅ (JObj [("category", JStr category1)]) [("title", "phone")])
    as (_ & _ & _ & _ & _ & _ & _ & _ & Hproducts & Hall & Hsub & _).
  split; [apply Hall; reflexivity |].
  split; [apply Hsub; reflexivity |].
  eapply Hproducts; [| reflexivity | reflexivity].
  apply NoDup_cons_2; [apply not_elem_of_nil | apply NoDup_nil_2].
Defined.

End ServicesFacts.

Module ShopFacts.
Import Http Shop.

(** ** Looking a document up by its identifier *)

Lemma findById_found {A} id (M : gmap ObjectId A) document :
  M !! id = Some document -> findById id M = inr (Some document).
Proof. unfold findById. now intros ->. Qed.

Lemma findById_missing {A} id (M : gmap ObjectId A) :
  M !! id = None -> isObjectId id = true -> findById id M = inr None.
Proof. unfold findById. now intros -> ->. Qed.

Lemma findById_cast {A} id (M : gmap ObjectId A) :
  M !! id = None -> isObjectId id = false ->
  findById id M = inl (CastError ("Cast to ObjectId failed for value " +:+ id)).
Proof. unfold findById. now intros -> ->. Qed.

(** A lookup that is not rejected found what the collection holds. *)
Lemma findById_resolved {A} id (M : gmap ObjectId A) found :
  findById id M = inr found -> found = M !! id.
Proof.
  unfold findById. destruct (M !! id); [now intros [= <-] |].
  destruct (isObjectId id); [now intros [= <-] | discriminate].
Qed.

Lemma findById_cases {A} id (M : gmap ObjectId A) :
  (exists e, findById id M = inl e /\ M !! id = None) \/ findById id M = inr (M !! id).
Proof.
  unfold findById. destruct (M !! id); [now right |].
  destruct (isObjectId id); [now right | left; eauto].
Qed.

(** ** The ways a cash order goes *)

Lemma createCashOrder_no_cart req now oid db :
  carts db !! cartId req = None ->
  isObjectId (cartId req) = true ->
  createCashOrder req now oid db
  = (Next (ApiError ("There is no such cart with id " +:+ cartId req) 404), db).
Proof.
  intros H Hid. unfold createCashOrder. now rewrite (findById_missing _ _ H Hid).
Qed.

Lemma createCashOrder_cast req now oid db :
  carts db !! cartId req = None ->
  isObjectId (cartId req) = false ->
  createCashOrder req now oid db
  = (Next (CastError ("Cast to ObjectId failed for value " +:+ cartId req)), db).
Proof.
  intros H Hid. unfold createCashOrder. now rewrite (findById_cast _ _ H Hid).
Qed.

Lemma createCashOrder_found req now oid db cart :
  carts db !! cartId req = Some cart ->
  orders db !! oid = None ->
  let order := mkOrder (userId req) (cartItems cart) 0 (shipping req) 0
                       (cartPrice cart + 0 + 0) cash false None false None now now in
  createCashOrder req now oid db
  = (Respond 201 (Success oid order),
     mkDb (delete (cartId req) (carts db))
          (bulkWrite now (bulkOption (cartItems cart)) (products db))
          (<[oid := order]> (orders db))
          (users db)).
Proof.
  intros Hcart Hfresh. unfold createCashOrder, createOrder.
  rewrite (findById_found _ _ _ Hcart), Hfresh. reflexivity.
Qed.

(** A cash order that was answered with 201 found its cart. *)
Lemma createCashOrder_created req now oid db reply db' :
  createCashOrder req now oid db = (Respond 201 reply, db') ->
  carts db' !! cartId req = None.
Proof.
  unfold createCashOrder, createOrder.
  destruct (findById (cartId req) (carts db)) as [e | [cart |]]; [discriminate | | discriminate].
  destruct (orders db !! oid); [discriminate |].
  intros [= _ <-]. simpl. apply lookup_delete_eq.
Qed.

Lemma cartPrice_cases cart :
  (forall d, totalPriceAfterDiscount cart = Some d -> d <> 0 -> cartPrice cart = d) /\
  (totalPriceAfterDiscount cart = Some 0 -> cartPrice cart = totalCartPrice cart) /\
  (totalPriceAfterDiscount cart = None -> cartPrice cart = totalCartPrice cart).
Proof.
  unfold cartPrice, truthy. repeat split.
  - intros d -> Hd. destruct (Z.eqb_spec d 0); [contradiction | reflexivity].
  - intros ->. reflexivity.
  - intros ->. reflexivity.
Qed.

(** C1 (amended). For a cart that exists, the cash order is created with
    a tax price of 0, a shipping price of 0 and, as its total, the cart's
    discounted total when that is present and not zero, otherwise the
    cart's total before discount, plus the two zeros; a cart of
    productA x2 at 10 and productB x1 at 5 with a total of 25 and no
    discount gives an order of 25. *)
Theorem createCashOrder_total :
  forall req now oid db cart,
    carts db !! cartId req = Some cart ->
    orders db !! oid = None ->
    exists order,
      fst (createCashOrder req now oid db) = Respond 201 (Success oid order) /\
      orders (snd (createCashOrder req now oid db)) !! oid = Some order /\
      taxPrice order = 0 /\ shippingPrice order = 0 /\
      (forall d, totalPriceAfterDiscount cart = Some d -> d <> 0 ->
                 totalOrderPrice order = d + 0 + 0) /\
      (totalPriceAfterDiscount cart = Some 0 \/ totalPriceAfterDiscount cart = None ->
       totalOrderPrice order = totalCartPrice cart + 0 + 0) /\
      (cartItems cart = [mkCartItem productA 2 None 10; mkCartItem productB 1 None 5] ->
       totalCartPrice cart = 25 -> totalPriceAfterDiscount cart = None ->
       totalOrderPrice order = 25).
Proof.
  intros req now oid db cart Hcart Hfresh.
  rewrite (createCashOrder_found req now oid db cart Hcart Hfresh). cbv zeta.
  eexists. split; [reflexivity |]. simpl.
  split; [apply lookup_insert_eq |].
  destruct (cartPrice_cases cart) as (Hnz & Hz & Hnone).
  repeat split.
  - intros d Hd Hne. now rewrite (Hnz d Hd Hne).
  - intros [H | H]; [rewrite (Hz H) | rewrite (Hnone H)]; reflexivity.
  - intros _ Htotal Hno. rewrite (Hnone Hno), Htotal. reflexivity.
Qed.

Lemma createCashOrder_total_witness :
  exists order,
    fst (createCashOrder exampleRequest 1000 order1 exampleDb)
    = Respond 201 (Success order1 order) /\
    totalOrderPrice order = 25.
Proof.
  destruct (createCashOrder_total exampleRequest 1000 order1 exampleDb exampleCart)
    as (order & Hreply & _ & _ & _ & _ & _ & Hex).
  - reflexivity.
  - reflexivity.
  - exists order. split; [exact Hreply |]. apply Hex; reflexivity.
Defined.

(** C1 as stated fails: a cart whose discounted total is present and 0 is
    charged its total before discount. *)
Lemma createCashOrder_total_as_stated_fails :
  ~ (forall req now oid db cart,
       carts db !! cartId req = Some cart ->
       orders db !! oid = None ->
       exists order,
         fst (createCashOrder req now oid db) = Respond 201 (Success oid order) /\
         totalOrderPrice order = statedTotal cart).
Proof.
  intros H.
  pose (cart := mkCart [mkCartItem productA 2 None 10; mkCartItem productB 1 None 5]
                       25 (Some 0) user1).
  pose (db := mkDb {[ cart1 := cart ]} ∅ ∅ ∅).
  destruct (H exampleRequest 1000 order1 db cart) as (order & Hreply & Htotal);
    [reflexivity | reflexivity |].
  rewrite (createCashOrder_found exampleRequest 1000 order1 db cart) in Hreply
    by reflexivity.
  cbv zeta in Hreply. simpl in Hreply. injection Hreply as <-.
  vm_compute in Htotal. discriminate Htotal.
Qed.

(** ** Not-Found *)

Section Provider.
Variable sessionsCreate : SessionParams -> JsError + Session.

Lemma checkoutSession_found req db cart :
  carts db !! cartId req = Some cart ->
  checkoutSession sessionsCreate req db
  = match sessionsCreate (sessionParams req (cartPrice cart + 0 + 0)) with
    | inl e => Next e
    | inr session => Respond 200 (SessionReply session)
    end.
Proof. intros H. unfold checkoutSession. now rewrite (findById_found _ _ _ H). Qed.

(** C3 (amended). A cart identifier that is an ObjectId (24 hexadecimal
    characters) and resolves to no cart makes the cash order and the
    checkout session fail with 404 and a message that contains the
    identifier; one that is not an ObjectId is rejected by the lookup
    itself, and the request is answered with 500. Either way the
    collections stay as they were (no order is created). A second cash
    order on the cart of a first one that was answered with 201 creates
    nothing, and fails with 404 when the identifier is an ObjectId. *)
Theorem unknown_cart_is_not_found :
  forall req now oid db,
    (carts db !! cartId req = None ->
     snd (createCashOrder req now oid db) = db /\
     (isObjectId (cartId req) = true ->
      notFoundNaming (cartId req) (fst (createCashOrder req now oid db)) /\
      notFoundNaming (cartId req) (checkoutSession sessionsCreate req db)) /\
     (isObjectId (cartId req) = false ->
      httpStatus (fst (createCashOrder req now oid db)) = 500 /\
      httpStatus (checkoutSession sessionsCreate req db) = 500)) /\
    (forall reply db',
       createCashOrder req now oid db = (Respond 201 reply, db') ->
       forall req2 now2 oid2,
         cartId req2 = cartId req ->
         orders (snd (createCashOrder req2 now2 oid2 db')) = orders db' /\
         (isObjectId (cartId req) = true ->
          notFoundNaming (cartId req) (fst (createCashOrder req2 now2 oid2 db')))).
Proof.
  intros req now oid db.
  assert (forall B id, notFoundNaming id
            (@Next B (ApiError ("There is no such cart with id " +:+ id) 404))) as Hmsg.
  { intros B id. split; [reflexivity |]. eexists. split; [reflexivity |].
    apply ServicesFacts.contains_suffix. }
  split.
  - intros Hnone. split; [| split].
    + destruct (isObjectId (cartId req)) eqn:Hid;
        [rewrite (createCashOrder_no_cart _ _ _ _ Hnone Hid)
        |rewrite (createCashOrder_cast _ _ _ _ Hnone Hid)]; reflexivity.
    + intros Hid. rewrite (createCashOrder_no_cart _ _ _ _ Hnone Hid).
      unfold checkoutSession. rewrite (findById_missing _ _ Hnone Hid). simpl. auto.
    + intros Hid. rewrite (createCashOrder_cast _ _ _ _ Hnone Hid).
      unfold checkoutSession. rewrite (findById_cast _ _ Hnone Hid). simpl. auto.
  - intros reply db' Hfirst req2 now2 oid2 Hsame.
    apply createCashOrder_created in Hfirst. rewrite <- Hsame in Hfirst. split.
    + destruct (isObjectId (cartId req2)) eqn:Hid;
        [rewrite (createCashOrder_no_cart _ _ _ _ Hfirst Hid)
        |rewrite (createCashOrder_cast _ _ _ _ Hfirst Hid)]; reflexivity.
    + intros Hid. rewrite <- Hsame in Hid.
      rewrite (createCashOrder_no_cart _ _ _ _ Hfirst Hid). rewrite Hsame. simpl. auto.
Qed.

(** C9. The fallback is taken on a falsy discounted total: with a
    discounted total of 0 (or none) the order total and the amount of
    the checkout session are those of the total before discount; the
    discounted total is used exactly when it is not zero. *)
Theorem zero_discounted_total_falls_back :
  forall req now oid db cart,
    carts db !! cartId req = Some cart ->
    let total := if decide (totalPriceAfterDiscount cart = Some 0
                            \/ totalPriceAfterDiscount cart = None)
                 then totalCartPrice cart
                 else default 0 (totalPriceAfterDiscount cart) in
    (orders db !! oid = None ->
     exists order,
       fst (createCashOrder req now oid db) = Respond 201 (Success oid order) /\
       totalOrderPrice order = total) /\
    checkoutSession sessionsCreate req db
    = match sessionsCreate (sessionParams req total) with
      | inl e => Next e
      | inr session => Respond 200 (SessionReply session)
      end /\
    List.map amount (line_items (sessionParams req total)) = [total * 100].
Proof.
  intros req now oid db cart Hcart total.
  assert (cartPrice cart + 0 + 0 = total) as Htotal.
  { destruct (cartPrice_cases cart) as (Hnz & Hz & Hnone). subst total.
    rewrite !Z.add_0_r.
    destruct (decide _) as [[H | H] | H]; auto.
    destruct (totalPriceAfterDiscount cart) as [d |] eqn:Hd; [| tauto].
    simpl. apply Hnz; [reflexivity |]. intros ->. tauto. }
  split; [| split].
  - intros Hfresh. rewrite (createCashOrder_found req now oid db cart Hcart Hfresh).
    cbv zeta. eexists. split; [reflexivity |]. exact Htotal.
  - rewrite (checkoutSession_found req db cart Hcart), Htotal. reflexivity.
  - reflexivity.
Qed.

End Provider.

(** A cart with a discount of 100%: discounted total 0, total before
    discount 25. *)
Lemma zero_discounted_total_witness :
  let cart := mkCart (cartItems exampleCart) 25 (Some 0) user1 in
  let db := mkDb {[ cart1 := cart ]} ∅ ∅ ∅ in
  (exists order,
     fst (createCashOrder exampleRequest 1000 order1 db)
     = Respond 201 (Success order1 order) /\
     totalOrderPrice order = 25) /\
  List.map amount (line_items (sessionParams exampleRequest 25)) = [2500].
Proof.
  cbv zeta.
  destruct (zero_discounted_total_falls_back (fun _ => inl (MongoError "offline"))
              exampleRequest 1000 order1
              (mkDb {[ cart1 := mkCart (cartItems exampleCart) 25 (Some 0) user1 ]} ∅ ∅ ∅)
              (mkCart (cartItems exampleCart) 25 (Some 0) user1))
    as (Hcash & _ & Hamount).
  - reflexivity.
  - split; [apply Hcash; reflexivity | exact Hamount].
Defined.

Lemma unknown_cart_witness :
  notFoundNaming cart9 (fst (createCashOrder unknownCartRequest
    1000 order1 exampleDb)) /\
  notFoundNaming cart1
    (fst (createCashOrder exampleRequest 2000 order2
            (snd (createCashOrder exampleRequest 1000 order1 exampleDb)))).
Proof.
  split.
  - destruct (unknown_cart_is_not_found (fun _ => inl (MongoError "offline"))
                unknownCartRequest 1000 order1 exampleDb)
      as [Hunknown _].
    destruct (Hunknown eq_refl) as (_ & Hwell & _).
    apply (Hwell eq_refl).
  - destruct (unknown_cart_is_not_found (fun _ => inl (MongoError "offline"))
                exampleRequest 1000 order1 exampleDb) as [_ Hsecond].
    eapply Hsecond; [| reflexivity | reflexivity].
    rewrite (createCashOrder_found exampleRequest 1000 order1 exampleDb
               exampleCart) by reflexivity.
    reflexivity.
Defined.

(** C3 as stated fails: a cart identifier that is not an ObjectId resolves
    to no cart, and the request ends in the [CastError] of the lookup,
    answered with 500 and not with 404. *)
Lemma unknown_cart_as_stated_fails :
  ~ (forall req now oid db,
       carts db !! cartId req = None ->
       notFoundNaming (cartId req) (fst (createCashOrder req now oid db))).
Proof.
  intros H.
  destruct (H malformedCartRequest 1000 order1 exampleDb eq_refl)
    as [Hstatus _].
  vm_compute in Hstatus. discriminate Hstatus.
Qed.

(** ** Stock *)

Lemma writeOne_line now P item :
  writeOne now P (mkUpdateOne (product item)
                              [("quantity", - quantity item); ("sold", quantity item)])
  = match P !! product item with
    | Some doc =>
        <[product item :=
            <["updatedAt" := now]>
              (<["quantity" := default 0 (doc !! "quantity") + - quantity item]> doc)]> P
    | None => P
    end.
Proof. unfold writeOne. simpl. destruct (P !! product item); reflexivity. Qed.

(** What the bulk write of a cart's lines does to a product: the stock
    goes down by the units ordered, [updatedAt] is stamped, and no other
    path of the document changes; [sold] in particular. *)
Lemma bulkWrite_stock now items :
  forall (P : gmap ObjectId (gmap string Z)) pid doc,
    P !! pid = Some doc ->
    exists doc',
      bulkWrite now (bulkOption items) P !! pid = Some doc' /\
      default 0 (doc' !! "quantity") = default 0 (doc !! "quantity") - ordered pid items /\
      (forall path, path <> "quantity" -> path <> "updatedAt" ->
                    doc' !! path = doc !! path).
Proof.
  induction items as [| item rest IH]; intros P pid doc Hdoc.
  - exists doc. simpl. split; [exact Hdoc |]. split; [lia | auto].
  - unfold bulkWrite, bulkOption. simpl. rewrite writeOne_line.
    fold (bulkOption rest). fold (bulkWrite now (bulkOption rest)).
    destruct (decide (product item = pid)) as [-> | Hne].
    + rewrite Hdoc.
      edestruct (IH (<[pid := <["updatedAt" := now]>
                       (<["quantity" := default 0 (doc !! "quantity") + - quantity item]> doc)]> P)
                    pid) as (doc' & Hdoc' & Hq & Hpaths).
      { apply lookup_insert_eq. }
      exists doc'. split; [exact Hdoc' |]. split.
      * rewrite Hq. rewrite lookup_insert_ne by discriminate.
        rewrite lookup_insert_eq. simpl.
        rewrite bool_decide_eq_true_2 by reflexivity. lia.
      * intros path H1 H2. rewrite (Hpaths path H1 H2).
        rewrite lookup_insert_ne by congruence. now rewrite lookup_insert_ne by congruence.
    + assert (match P !! product item with
              | Some d =>
                  <[product item :=
                      <["updatedAt" := now]>
                        (<["quantity" := default 0 (d !! "quantity") + - quantity item]> d)]> P
              | None => P
              end !! pid = Some doc) as Hkeep.
      { destruct (P !! product item); [| exact Hdoc].
        now rewrite lookup_insert_ne by exact Hne. }
      destruct (IH _ pid doc Hkeep) as (doc' & Hdoc' & Hq & Hpaths).
      exists doc'. split; [exact Hdoc' |]. split; [| exact Hpaths].
      rewrite Hq. simpl. rewrite bool_decide_eq_false_2 by exact Hne. lia.
Qed.

(** X15. A cash order on a cart that exists: the cart is gone, the stock
    of a product went down by the units ordered on the lines of the cart,
    whatever the stock was (nothing checks it), and [sold] stayed as it
    was. *)
Lemma createCashOrder_stock req now oid db cart pid doc :
  carts db !! cartId req = Some cart ->
  orders db !! oid = None ->
  products db !! pid = Some doc ->
  let db' := snd (createCashOrder req now oid db) in
  carts db' !! cartId req = None /\
  exists doc',
    products db' !! pid = Some doc' /\
    default 0 (doc' !! "quantity")
    = default 0 (doc !! "quantity") - ordered pid (cartItems cart) /\
    doc' !! "sold" = doc !! "sold".
Proof.
  intros Hcart Hfresh Hdoc.
  rewrite (createCashOrder_found req now oid db cart Hcart Hfresh). cbv zeta. simpl.
  split; [apply lookup_delete_eq |].
  destruct (bulkWrite_stock now (cartItems cart) (products db) pid doc Hdoc)
    as (doc' & Hdoc' & Hq & Hpaths).
  exists doc'. split; [exact Hdoc' |]. split; [exact Hq |]. apply Hpaths; discriminate.
Qed.

(** C2 (the code departs from the claim). The cash order of the example
    cart is created; afterwards the cart is not found, the stock of
    productA went from 10 to 8 and that of productB from 4 to 3, but no
    product has had [sold] counted up: productA still has none and
    productB still has 1. *)
Theorem cash_order_leaves_sold_unchanged :
  let db' := snd (createCashOrder exampleRequest 1000 order1 exampleDb) in
  httpStatus (fst (createCashOrder exampleRequest 1000 order1 exampleDb)) = 201 /\
  carts db' !! cart1 = None /\
  (products db' !! productA ≫= lookup "quantity") = Some 8 /\
  (products db' !! productB ≫= lookup "quantity") = Some 3 /\
  (products exampleDb !! productA ≫= lookup "sold") = None /\
  (products db' !! productA ≫= lookup "sold") = None /\
  (products exampleDb !! productB ≫= lookup "sold") = Some 1 /\
  (products db' !! productB ≫= lookup "sold") = Some 1.
Proof. cbv zeta. repeat split; vm_compute; reflexivity. Qed.

(** ** Paid and delivered *)

Lemma save_markPaid now o :
  let o' := save now o (markPaid now o) in
  isPaid o' = true /\ paidAt o' = Some now /\
  user o' = user o /\ orderItems o' = orderItems o /\ taxPrice o' = taxPrice o /\
  shippingAddress o' = shippingAddress o /\ shippingPrice o' = shippingPrice o /\
  totalOrderPrice o' = totalOrderPrice o /\ paymentMethodType o' = paymentMethodType o /\
  isDelivered o' = isDelivered o /\ deliveredAt o' = deliveredAt o /\
  createdAt o' = createdAt o.
Proof.
  cbv zeta. unfold save. case_bool_decide as Hsame.
  - rewrite <- Hsame at 1 2. simpl. repeat split; reflexivity.
  - simpl. repeat split; reflexivity.
Qed.

Lemma save_markDelivered now o :
  let o' := save now o (markDelivered now o) in
  isDelivered o' = true /\ isPaid o' = isPaid o.
Proof.
  cbv zeta. unfold save. case_bool_decide as Hsame.
  - rewrite <- Hsame at 1. simpl. split; reflexivity.
  - simpl. split; reflexivity.
Qed.

Lemma updateOrderToPaid_found id now db o :
  orders db !! id = Some o ->
  updateOrderToPaid id now db
  = (Respond 200 (Success id (save now o (markPaid now o))),
     mkDb (carts db) (products db) (<[id := save now o (markPaid now o)]> (orders db))
          (users db)).
Proof. intros H. unfold updateOrderToPaid. now rewrite (findById_found _ _ _ H). Qed.

(** C5 (amended). Marking an order paid twice leaves it paid, as marking
    it once does; the order after the second call differs from the order
    after the first in nothing but [paidAt] and [updatedAt], and nothing
    else in the collections differs. *)
Theorem updateOrderToPaid_twice :
  forall id t1 t2 db o,
    orders db !! id = Some o ->
    let db1 := snd (updateOrderToPaid id t1 db) in
    let db2 := snd (updateOrderToPaid id t2 db1) in
    exists o1 o2,
      orders db1 !! id = Some o1 /\ orders db2 !! id = Some o2 /\
      httpStatus (fst (updateOrderToPaid id t2 db1)) = 200 /\
      isPaid o1 = true /\ isPaid o2 = true /\
      sameButPaidStamps o1 o2 /\
      carts db2 = carts db1 /\ products db2 = products db1 /\ users db2 = users db1 /\
      (forall id', id' <> id -> orders db2 !! id' = orders db1 !! id').
Proof.
  intros id t1 t2 db o Ho.
  rewrite (updateOrderToPaid_found id t1 db o Ho). cbv zeta. simpl.
  set (o1 := save t1 o (markPaid t1 o)).
  set (db1 := mkDb _ _ _ _).
  assert (orders db1 !! id = Some o1) as Ho1 by apply lookup_insert_eq.
  rewrite (updateOrderToPaid_found id t2 db1 o1 Ho1). simpl.
  exists o1, (save t2 o1 (markPaid t2 o1)).
  destruct (save_markPaid t1 o) as (Hp1 & _).
  destruct (save_markPaid t2 o1)
    as (Hp2 & _ & Hu & Hi & Htax & Hsa & Hsp & Htot & Hpm & Hd & Hda & Hc).
  fold o1 in Hp1.
  split; [exact Ho1 |]. split; [apply lookup_insert_eq |]. split; [reflexivity |].
  split; [exact Hp1 |]. split; [exact Hp2 |].
  split.
  { unfold sameButPaidStamps. rewrite Hu, Hi, Htax, Hsa, Hsp, Htot, Hpm, Hd, Hda, Hc, Hp1, Hp2.
    repeat split; reflexivity. }
  repeat split; try reflexivity.
  intros id' Hne. now rewrite lookup_insert_ne by congruence.
Qed.

Lemma updateOrderToPaid_twice_witness :
  exists o1 o2,
    orders (snd (updateOrderToPaid order1 1000 exampleOrders)) !! order1 = Some o1 /\
    orders (snd (updateOrderToPaid order1 2000
                   (snd (updateOrderToPaid order1 1000 exampleOrders)))) !! order1
    = Some o2 /\
    isPaid o1 = true /\ isPaid o2 = true /\ sameButPaidStamps o1 o2.
Proof.
  destruct (updateOrderToPaid_twice order1 1000 2000 exampleOrders exampleOrder)
    as (o1 & o2 & H1 & H2 & _ & Hp1 & Hp2 & Hsame & _).
  - reflexivity.
  - exists o1, o2. auto.
Defined.

(** C5 as stated fails: the second call also moves [updatedAt]. *)
Lemma updateOrderToPaid_twice_as_stated_fails :
  ~ (forall id t1 t2 db o,
       orders db !! id = Some o ->
       let db1 := snd (updateOrderToPaid id t1 db) in
       let db2 := snd (updateOrderToPaid id t2 db1) in
       exists o1 o2,
         orders db1 !! id = Some o1 /\ orders db2 !! id = Some o2 /\
         isPaid o1 = true /\ isPaid o2 = true /\
         sameButPaidAt o1 o2).
Proof.
  intros H.
  destruct (H order1 1000 2000 exampleOrders exampleOrder eq_refl)
    as (o1 & o2 & H1 & H2 & _ & _ & _ & Hupd).
  vm_compute in H1. vm_compute in H2.
  injection H1 as <-. injection H2 as <-.
  discriminate Hupd.
Qed.

(** One operation keeps every order and never clears a flag. *)
Lemma runOp_keeps_orders op db id o :
  orders db !! id = Some o ->
  exists o',
    orders (runOp db op) !! id = Some o' /\
    (isPaid o = true -> isPaid o' = true) /\
    (isDelivered o = true -> isDelivered o' = true).
Proof.
  intros Ho.
  assert (forall oid new (O' : gmap ObjectId Order),
            createOrder oid new (orders db) = inr O' -> O' !! id = Some o) as Hcreate.
  { intros oid new O'. unfold createOrder.
    destruct (orders db !! oid) eqn:Hoid; [discriminate |].
    intros [= <-]. rewrite lookup_insert_ne by congruence. exact Ho. }
  destruct op as [req now oid | session now oid | id' now | id' now]; simpl.
  - exists o. split; [| auto]. unfold createCashOrder.
    destruct (findById_cases (cartId req) (carts db)) as [(e & -> & _) | ->]; [exact Ho |].
    destruct (carts db !! cartId req); [| exact Ho].
    destruct (createOrder _ _ _) eqn:Hc; [exact Ho |]. simpl. eapply Hcreate, Hc.
  - exists o. split; [| auto]. unfold createCardOrder.
    destruct (findById_cases (sessionCart session) (carts db)) as [(e & -> & _) | ->];
      [exact Ho |].
    destruct (findOneByEmail _ _) as [[uid u] |]; [| exact Ho].
    destruct (carts db !! sessionCart session); [| exact Ho].
    destruct (createOrder _ _ _) eqn:Hc; [exact Ho |]. simpl. eapply Hcreate, Hc.
  - unfold updateOrderToPaid.
    destruct (findById_cases id' (orders db)) as [(e & -> & _) | ->]; [exists o; auto |].
    destruct (orders db !! id') as [stored |] eqn:Hid'; simpl; [| exists o; auto].
    destruct (decide (id' = id)) as [-> | Hne].
    + rewrite Ho in Hid'. injection Hid' as <-.
      exists (save now o (markPaid now o)). rewrite lookup_insert_eq.
      destruct (save_markPaid now o) as (Hp & _ & _ & _ & _ & _ & _ & _ & _ & Hd & _).
      split; [reflexivity |]. split; [auto | congruence].
    + exists o. rewrite lookup_insert_ne by exact Hne. auto.
  - unfold updateOrderToDelivered.
    destruct (findById_cases id' (orders db)) as [(e & -> & _) | ->]; [exists o; auto |].
    destruct (orders db !! id') as [stored |] eqn:Hid'; simpl; [| exists o; auto].
    destruct (decide (id' = id)) as [-> | Hne].
    + rewrite Ho in Hid'. injection Hid' as <-.
      exists (save now o (markDelivered now o)). rewrite lookup_insert_eq.
      destruct (save_markDelivered now o) as (Hd & Hp).
      split; [reflexivity |]. split; [congruence | auto].
    + exists o. rewrite lookup_insert_ne by exact Hne. auto.
Qed.

(** C6. Along any sequence of cash orders, card orders, markings as paid
    and markings as delivered, an order that is in the collection stays in
    it, and a flag of it that is set stays set. *)
Theorem order_flags_are_monotone :
  forall ops db id o,
    orders db !! id = Some o ->
    exists o',
      orders (runOps ops db) !! id = Some o' /\
      (isPaid o = true -> isPaid o' = true) /\
      (isDelivered o = true -> isDelivered o' = true).
Proof.
  induction ops as [| op rest IH]; intros db id o Ho.
  - exists o. auto.
  - destruct (runOp_keeps_orders op db id o Ho) as (o1 & Ho1 & Hp1 & Hd1).
    destruct (IH (runOp db op) id o1 Ho1) as (o' & Ho' & Hp & Hd).
    exists o'. split; [exact Ho' |]. split; auto.
Qed.

(** The sequence theorem at an order already marked paid: a colliding
    cash order, a delivery and a second payment leave it paid. *)
Lemma order_flags_witness :
  exists o',
    orders (runOps [CashOrder exampleRequest 1500 order1;
                    ToDelivered order1 2000; ToPaid order1 3000]
                   (snd (updateOrderToPaid order1 1000 exampleOrders))) !! order1
    = Some o' /\
    isPaid o' = true.
Proof.
  destruct (order_flags_are_monotone
              [CashOrder exampleRequest 1500 order1;
               ToDelivered order1 2000; ToPaid order1 3000]
              (snd (updateOrderToPaid order1 1000 exampleOrders)) order1
              (save 1000 exampleOrder (markPaid 1000 exampleOrder)))
    as (o' & Ho' & Hpaid & _).
  - reflexivity.
  - exists o'. split; [exact Ho' |]. apply Hpaid. reflexivity.
Defined.

(** ** The provider's callback *)

(** C7. A callback that does not pass the signature check is answered
    with 400, and the collections are what they were: no order, no change
    to a product or a cart. *)
Theorem webhook_signature_mismatch :
  forall (constructEvent : string -> option string -> option string -> string + Event)
         body sig secret now oid db message,
    constructEvent body sig secret = inl message ->
    webhookCheckout constructEvent body sig secret now oid db
    = (Respond 400 (Text ("Webhook Error: " +:+ message)), db).
Proof.
  intros constructEvent body sig secret now oid db message H.
  unfold webhookCheckout. now rewrite H.
Qed.

Lemma webhook_signature_mismatch_witness :
  webhookCheckout (fun _ _ _ => inl "No signatures found matching the expected signature")
                  "{}" (Some "t=1,v1=00") (Some "whsec_test") 1000 order1 exampleDb
  = (Respond 400 (Text "Webhook Error: No signatures found matching the expected signature"),
     exampleDb).
Proof.
  apply (webhook_signature_mismatch
           (fun _ _ _ => inl "No signatures found matching the expected signature")).
  reflexivity.
Defined.

End ShopFacts.

Module ValidationFacts.
Import Http Validator Services Validation ValidatorFacts.

(** ** sanitizeInput, once more *)

Lemma sanitizeObject_as_key v : isObject v = true -> sanitizeObject v = sanitizeKey sanitizeObject v.
Proof. intros H. now rewrite sanitizeKey_object. Qed.

Lemma sanitizeObject_plain v : isObject v = false -> sanitizeObject v = v.
Proof. destruct v; simpl; try discriminate; reflexivity. Qed.

Lemma sanitizeKey_twice :
  forall v, sanitizeKey sanitizeObject (sanitizeKey sanitizeObject v)
            = sanitizeKey sanitizeObject v.
Proof.
  induction v using Json_nested_ind; try reflexivity.
  - destruct (isBlank (JStr s)) eqn:Hb.
    + assert (sanitizeKey sanitizeObject (JStr s) = JNull) as ->
        by (unfold sanitizeKey; now rewrite Hb).
      reflexivity.
    + now rewrite !(sanitizeKey_plain _ (JStr s) Hb eq_refl).
  - rewrite (sanitizeKey_object _ (JArr items)) by reflexivity. simpl.
    rewrite sanitizeKey_object by reflexivity. simpl. f_equal.
    induction H as [| x rest Hx Hrest IH]; simpl; [reflexivity |]. now rewrite Hx, IH.
  - rewrite (sanitizeKey_object _ (JObj props)) by reflexivity. simpl.
    rewrite sanitizeKey_object by reflexivity. simpl. f_equal.
    induction H as [| kv rest Hx Hrest IH]; simpl; [reflexivity |]. now rewrite Hx, IH.
Qed.

Lemma sanitizeObject_twice v : sanitizeObject (sanitizeObject v) = sanitizeObject v.
Proof.
  destruct (isObject v) eqn:Hobj.
  - rewrite (sanitizeObject_as_key v Hobj).
    assert (isObject (sanitizeKey sanitizeObject v) = true) as Hobj'
      by (destruct v; try discriminate; reflexivity).
    rewrite (sanitizeObject_as_key _ Hobj'). apply sanitizeKey_twice.
  - now rewrite !(sanitizeObject_plain v Hobj).
Qed.

Lemma truthy_sanitizeObject v : truthy (sanitizeObject v) = truthy v.
Proof. destruct v; reflexivity. Qed.

Lemma sanitizePart_twice part : sanitizePart (sanitizePart part) = sanitizePart part.
Proof.
  destruct part as [v |]; simpl; [| reflexivity].
  destruct (truthy v) eqn:Ht; simpl.
  - now rewrite truthy_sanitizeObject, Ht, sanitizeObject_twice.
  - now rewrite Ht.
Qed.

(** X1. Sanitizing is idempotent: a request that went through
    [sanitizeInput] twice reaches the next handler exactly as after once. *)
Theorem sanitizeInput_idempotent :
  forall (R : Type) (req : Request) (next : Request -> R),
    sanitizeInput req (fun req' => sanitizeInput req' next) = sanitizeInput req next.
Proof.
  intros R req next. unfold sanitizeInput. simpl. now rewrite !sanitizePart_twice.
Qed.

Lemma sanitizeKey_clean :
  forall v, isBlank (sanitizeKey sanitizeObject v) = false /\
            clean (sanitizeKey sanitizeObject v) = true.
Proof.
  induction v using Json_nested_ind; try (split; reflexivity).
  - unfold sanitizeKey. destruct (isBlank (JStr s)) eqn:Hb; [split; reflexivity |].
    split; [exact Hb | reflexivity].
  - rewrite sanitizeKey_object by reflexivity. simpl. split; [reflexivity |].
    induction H as [| x rest [Hx1 Hx2] Hrest IH]; simpl; [reflexivity |].
    now rewrite Hx1, Hx2, IH.
  - rewrite sanitizeKey_object by reflexivity. simpl. split; [reflexivity |].
    induction H as [| kv rest [Hx1 Hx2] Hrest IH]; simpl; [reflexivity |].
    now rewrite Hx1, Hx2, IH.
Qed.

(** X2. After [sanitizeObject] no property of the value, at any depth,
    holds the empty string or the string "undefined". *)
Theorem sanitizeObject_leaves_no_blank :
  forall v, clean (sanitizeObject v) = true.
Proof.
  intros v. destruct (isObject v) eqn:Hobj.
  - rewrite (sanitizeObject_as_key v Hobj). apply sanitizeKey_clean.
  - rewrite (sanitizeObject_plain v Hobj). destruct v; try discriminate; reflexivity.
Qed.

Lemma sanitizeKey_shape :
  forall v, shape (sanitizeKey sanitizeObject v) = shape v.
Proof.
  induction v using Json_nested_ind; try reflexivity.
  - unfold sanitizeKey. destruct (isBlank (JStr s)); reflexivity.
  - rewrite sanitizeKey_object by reflexivity. simpl. f_equal.
    induction H as [| x rest Hx Hrest IH]; simpl; [reflexivity |]. now rewrite Hx, IH.
  - rewrite sanitizeKey_object by reflexivity. simpl. f_equal.
    induction H as [| kv rest Hx Hrest IH]; simpl; [reflexivity |]. now rewrite Hx, IH.
Qed.

(** X3. [sanitizeObject] adds, removes and reorders nothing: at every
    depth objects keep their keys in their order and arrays their length. *)
Theorem sanitizeObject_keeps_shape :
  forall v, shape (sanitizeObject v) = shape v.
Proof.
  intros v. destruct (isObject v) eqn:Hobj.
  - rewrite (sanitizeObject_as_key v Hobj). apply sanitizeKey_shape.
  - now rewrite (sanitizeObject_plain v Hobj).
Qed.

(** ** validatorMiddleware *)

Lemma getProp_setProp_eq {A} key (v : A) props : getProp key (setProp key v props) = Some v.
Proof.
  induction props as [| [k old] rest IH]; simpl.
  - now rewrite bool_decide_eq_true_2.
  - case_bool_decide as Hk; simpl.
    + now rewrite bool_decide_eq_true_2.
    + now rewrite bool_decide_eq_false_2.
Qed.

Lemma getProp_setProp_ne {A} key other (v : A) props :
  other <> key -> getProp other (setProp key v props) = getProp other props.
Proof.
  intros Hne. induction props as [| [k old] rest IH]; simpl.
  - now rewrite bool_decide_eq_false_2 by congruence.
  - case_bool_decide as Hk; simpl.
    + subst k. now rewrite !bool_decide_eq_false_2 by congruence.
    + now rewrite IH.
Qed.

Lemma inherited_spec key :
  existsb (fun k => bool_decide (k = key)) objectPrototypeKeys = true
  <-> key ∈ objectPrototypeKeys.
Proof.
  rewrite existsb_exists. split.
  - intros (k & Hin & Hk). apply bool_decide_eq_true in Hk. subst k.
    now apply list_elem_of_In.
  - intros Hin. exists key. split; [now apply list_elem_of_In |].
    now apply bool_decide_eq_true.
Qed.

Lemma messagesFor_snoc field seen e :
  messagesFor field (seen ++ [e])%list
  = (messagesFor field seen ++ (if bool_decide (fieldOf e = field) then [msg e] else []))%list.
Proof.
  unfold messagesFor. rewrite List.filter_app, List.map_app. simpl.
  case_bool_decide; reflexivity.
Qed.

Lemma recorded_snoc messages m : recorded (messages ++ [m])%list = Some (messages ++ [m])%list.
Proof. destruct messages; reflexivity. Qed.

Lemma recorded_inv messages r : recorded messages = r ->
  match r with Some ms => messages = ms | None => messages = [] end.
Proof. intros <-. destruct messages; reflexivity. Qed.

Lemma formatStep_grouped formattedErrors seen e :
  fieldOf e ∉ objectPrototypeKeys ->
  (forall field, getProp field formattedErrors = recorded (messagesFor field seen)) ->
  exists formattedErrors',
    formatStep (inr formattedErrors) e = inr formattedErrors' /\
    (forall field, getProp field formattedErrors'
                   = recorded (messagesFor field (seen ++ [e])%list)).
Proof.
  intros Hown Hgrouped. unfold formatStep.
  destruct (existsb _ objectPrototypeKeys) eqn:Hinh;
    [apply inherited_spec in Hinh; contradiction |].
  pose proof (Hgrouped (fieldOf e)) as Hkey.
  destruct (getProp (fieldOf e) formattedErrors) as [messages |];
    symmetry in Hkey; apply recorded_inv in Hkey;
    eexists; (split; [reflexivity |]); intros field; rewrite messagesFor_snoc;
    case_bool_decide as Hf.
  - subst field. rewrite getProp_setProp_eq, Hkey. symmetry. apply recorded_snoc.
  - rewrite getProp_setProp_ne by congruence. now rewrite app_nil_r.
  - subst field. rewrite getProp_setProp_eq, Hkey. reflexivity.
  - rewrite getProp_setProp_ne by congruence. now rewrite app_nil_r.
Qed.

Lemma format_grouped found :
  Forall (fun e => fieldOf e ∉ objectPrototypeKeys) found ->
  forall formattedErrors seen,
    (forall field, getProp field formattedErrors = recorded (messagesFor field seen)) ->
    exists formattedErrors',
      fold_left formatStep found (inr formattedErrors) = inr formattedErrors' /\
      (forall field, getProp field formattedErrors'
                     = recorded (messagesFor field (seen ++ found)%list)).
Proof.
  induction 1 as [| e rest He Hrest IH]; intros formattedErrors seen Hgrouped;
    cbn [fold_left].
  - exists formattedErrors. now rewrite app_nil_r.
  - destruct (formatStep_grouped formattedErrors seen e He Hgrouped) as (fe1 & -> & H1).
    destruct (IH fe1 (seen ++ [e])%list H1) as (fe2 & -> & H2).
    exists fe2. split; [reflexivity |]. intros field.
    rewrite H2, <- app_assoc. reflexivity.
Qed.

(** X4. A request with validation errors is refused with 400, and the
    answer lists, under each field that has errors and under no other key,
    the messages of that field in the order they were found (for fields
    that are not names an object inherits). A request without errors goes
    on to the next handler. *)
Theorem validatorMiddleware_groups_messages :
  forall found development,
    Forall (fun e => fieldOf e ∉ objectPrototypeKeys) found ->
    match found with
    | [] => validatorMiddleware found development = Passed
    | _ =>
        exists formattedErrors,
          validatorMiddleware found development
          = Rejected 400 (mkFailBody "fail" "Validation failed" formattedErrors
                                     (if development then Some found else None)) /\
          forall field, getProp field formattedErrors = recorded (messagesFor field found)
    end.
Proof.
  intros found development Hown.
  destruct found as [| e rest]; [reflexivity |].
  destruct (format_grouped (e :: rest) Hown [] []) as (fe & Hfold & Hgrouped);
    [reflexivity |].
  exists fe. unfold validatorMiddleware. rewrite Hfold. split; [reflexivity | exact Hgrouped].
Qed.

Lemma validatorMiddleware_witness :
  exists formattedErrors,
    validatorMiddleware
      [ mkFieldError (Some "name") None "Category required" JNull;
        mkFieldError None (Some "image") "Image required" JNull;
        mkFieldError (Some "name") None "Too short category name" (JStr "ab") ] false
    = Rejected 400 (mkFailBody "fail" "Validation failed" formattedErrors None) /\
    getProp "name" formattedErrors = Some ["Category required"; "Too short category name"] /\
    getProp "slug" formattedErrors = None.
Proof.
  destruct (validatorMiddleware_groups_messages
              [ mkFieldError (Some "name") None "Category required" JNull;
                mkFieldError None (Some "image") "Image required" JNull;
                mkFieldError (Some "name") None "Too short category name" (JStr "ab") ] false)
    as (fe & Hreply & Hgrouped).
  - repeat (first [apply Forall_nil_2 | apply Forall_cons_2]);
      apply (bool_decide_unpack _); vm_compute; exact I.
  - exists fe. split; [exact Hreply |]. split; apply Hgrouped.
Defined.

Lemma formatStep_thrown found err : fold_left formatStep found (inl err) = inl err.
Proof. induction found as [| e rest IH]; simpl; [reflexivity | exact IH]. Qed.

(** X5. An error on a field named like a property every object inherits
    ("constructor", "toString", ...) makes the grouping throw: the request
    ends in a [TypeError], answered with 500, not in the 400 listing. *)
Theorem validatorMiddleware_inherited_field_throws :
  forall found development,
    Exists (fun e => fieldOf e ∈ objectPrototypeKeys) found ->
    exists message,
      validatorMiddleware found development = Failed (TypeError message) /\
      fst (globalError (TypeError message)) = 500.
Proof.
  intros found development Hex.
  assert (forall acc, exists message,
            fold_left formatStep found (inr acc) = inl (TypeError message)) as Hfold.
  { induction Hex as [e rest He | e rest Hrest IH]; intros acc; cbn [fold_left].
    - apply inherited_spec in He. unfold formatStep at 2. rewrite He.
      eexists. apply formatStep_thrown.
    - unfold formatStep at 2.
      destruct (existsb _ objectPrototypeKeys);
        [eexists; apply formatStep_thrown |].
      destruct (getProp (fieldOf e) acc); apply IH. }
  destruct (Hfold []) as [message Hm]. exists message.
  split; [| reflexivity].
  unfold validatorMiddleware. destruct found; [inversion Hex |]. now rewrite Hm.
Qed.

Lemma validatorMiddleware_inherited_witness :
  exists message,
    validatorMiddleware [mkFieldError (Some "constructor") None "Invalid value" JNull] true
    = Failed (TypeError message).
Proof.
  destruct (validatorMiddleware_inherited_field_throws
              [mkFieldError (Some "constructor") None "Invalid value" JNull] true)
    as (message & Hm & _).
  - apply Exists_cons_hd. apply (bool_decide_unpack _). vm_compute. exact I.
  - exists message. exact Hm.
Defined.

(** ** validatorMiddlewareWithThrow *)

Lemma append_cons c (a b : string) : String c a +:+ b = String c (a +:+ b).
Proof. reflexivity. Qed.

Lemma append_assoc (a b c : string) : (a +:+ b) +:+ c = a +:+ (b +:+ c).
Proof.
  induction a as [| x a IH]; [reflexivity |].
  now rewrite !append_cons, IH.
Qed.

Lemma contains_self p : contains p p.
Proof. exists "", "". now rewrite ServicesFacts.append_empty_r. Qed.

Lemma contains_prepend a m p : contains m p -> contains (a +:+ m) p.
Proof. intros (pre & post & ->). exists (a +:+ pre), post. now rewrite append_assoc. Qed.

Lemma contains_append m b p : contains m p -> contains (m +:+ b) p.
Proof.
  intros (pre & post & ->). exists pre, (post +:+ b). now rewrite !append_assoc.
Qed.

Lemma joinWith_contains sep parts p : p ∈ parts -> contains (joinWith sep parts) p.
Proof.
  induction parts as [| q rest IH]; intros Hin; [inversion Hin |].
  destruct rest as [| r rest].
  - apply list_elem_of_singleton in Hin. subst. apply contains_self.
  - change (joinWith sep (q :: r :: rest)) with (q +:+ sep +:+ joinWith sep (r :: rest)).
    apply elem_of_cons in Hin as [-> | Hin].
    + apply contains_append with (b := sep +:+ joinWith sep (r :: rest)), contains_self.
    + apply contains_prepend, contains_prepend, IH, Hin.
Qed.

(** X6. The throwing variant refuses a request with validation errors by
    an error of status 400 whose message starts with "Validation failed: "
    and contains "field: message" for every error found. *)
Theorem validatorMiddlewareWithThrow_names_every_error :
  forall found,
    found <> [] ->
    exists listing,
      validatorMiddlewareWithThrow found
      = Failed (ApiError ("Validation failed: " +:+ listing) 400) /\
      fst (globalError (ApiError ("Validation failed: " +:+ listing) 400)) = 400 /\
      forall e, e ∈ found -> contains listing (fieldOf e +:+ ": " +:+ msg e).
Proof.
  intros found Hne. destruct found as [| e0 rest]; [contradiction |].
  eexists. split; [reflexivity |]. split; [reflexivity |].
  intros e He. apply joinWith_contains.
  apply list_elem_of_fmap. exists e. split; [reflexivity | exact He].
Qed.

Lemma validatorMiddlewareWithThrow_witness :
  exists listing,
    validatorMiddlewareWithThrow
      [ mkFieldError (Some "name") None "Category required" JNull;
        mkFieldError None (Some "image") "Image required" JNull ]
    = Failed (ApiError ("Validation failed: " +:+ listing) 400) /\
    contains listing "image: Image required".
Proof.
  destruct (validatorMiddlewareWithThrow_names_every_error
              [ mkFieldError (Some "name") None "Category required" JNull;
                mkFieldError None (Some "image") "Image required" JNull ])
    as (listing & Hreply & _ & Hall).
  - discriminate.
  - exists listing. split; [exact Hreply |].
    apply (Hall (mkFieldError None (Some "image") "Image required" JNull)).
    apply list_elem_of_further, list_elem_of_here.
Defined.

End ValidationFacts.

Module ModelsFacts.
Import Http Shop Models ShopFacts.

(** ** Image hooks *)

Lemma slice4_append (b t : string) : slice4 b = "http" -> slice4 (b +:+ t) = "http".
Proof.
  unfold slice4.
  assert (forall s, String.substring 0 0 s = "") as Hnone by (intros [| c s]; reflexivity).
  destruct b as [| c1 [| c2 [| c3 [| c4 r]]]]; simpl; try discriminate.
  rewrite !Hnone. intros [= -> -> -> ->]. reflexivity.
Qed.

Lemma slice4_nonempty (s : string) : slice4 s = "http" -> s <> "".
Proof. intros H ->. discriminate H. Qed.

Lemma prefixImage_twice prefix image :
  slice4 prefix = "http" ->
  prefixImage prefix (prefixImage prefix image) = prefixImage prefix image.
Proof.
  intros Hp. destruct image as [img |]; [| reflexivity]. unfold prefixImage.
  case_bool_decide as Hempty; [now rewrite bool_decide_eq_true_2 |].
  case_bool_decide as Hhttp.
  - now rewrite (bool_decide_eq_false_2 _ Hempty), (bool_decide_eq_true_2 _ Hhttp).
  - pose proof (slice4_append prefix img Hp) as Habs.
    rewrite (bool_decide_eq_false_2 _ (slice4_nonempty _ Habs)).
    now rewrite (bool_decide_eq_true_2 _ Habs).
Qed.

Lemma prefixImage_absolute prefix image s :
  slice4 prefix = "http" ->
  prefixImage prefix image = Some s -> s <> "" -> slice4 s = "http".
Proof.
  intros Hp. destruct image as [img |]; [| discriminate]. unfold prefixImage.
  case_bool_decide as Hempty; [intros [= <-]; contradiction |].
  case_bool_decide as Hhttp; intros [= <-] _; [exact Hhttp |].
  now apply slice4_append.
Qed.

(** X7. The image hooks of brands and categories are idempotent, and
    after them an image that is not empty is an absolute URL (starts with
    "http"): running the hook on every load and every save never stacks
    prefixes. *)
Theorem brand_category_image_hooks_idempotent :
  forall image,
    setBrandImageURL (setBrandImageURL image) = setBrandImageURL image /\
    setCategoryImageURL (setCategoryImageURL image) = setCategoryImageURL image /\
    (forall s, setBrandImageURL image = Some s -> s <> "" -> slice4 s = "http") /\
    (forall s, setCategoryImageURL image = Some s -> s <> "" -> slice4 s = "http").
Proof.
  intros image. unfold setBrandImageURL, setCategoryImageURL.
  split; [apply prefixImage_twice; reflexivity |].
  split; [apply prefixImage_twice; reflexivity |].
  split; intros s; apply prefixImage_absolute; reflexivity.
Qed.

Lemma productImage_twice base image :
  slice4 base = "http" ->
  let hook := fun image : string =>
                if bool_decide (slice4 image = "http") then image
                else base +:+ "/uploads/products/" +:+ image in
  hook (hook image) = hook image.
Proof.
  intros Hb hook. subst hook. cbv beta.
  destruct (bool_decide (slice4 image = "http")) eqn:Hhttp.
  - now rewrite Hhttp.
  - rewrite bool_decide_eq_true_2; [reflexivity |]. now apply slice4_append.
Qed.

(** X8. With a [BASE_URL] that starts with "http", the image hooks of
    users and products are idempotent too, and the product hook keeps the
    number of images. *)
Theorem user_product_image_hooks_idempotent :
  forall base profileImage images,
    slice4 base = "http" ->
    setUserImageURL (Some base) (setUserImageURL (Some base) profileImage)
    = setUserImageURL (Some base) profileImage /\
    setProductImageURL (Some base) (setProductImageURL (Some base) images)
    = setProductImageURL (Some base) images /\
    length (default [] (setProductImageURL (Some base) images)) = length (default [] images).
Proof.
  intros base profileImage images Hb. split; [| split].
  - unfold setUserImageURL. apply prefixImage_twice. simpl. now apply slice4_append.
  - destruct images as [[| first rest] |]; try reflexivity.
    unfold setProductImageURL. cbn [List.map default]. unfold id. f_equal.
    rewrite (productImage_twice base first Hb). f_equal.
    rewrite List.map_map. apply List.map_ext. intros image.
    apply (productImage_twice base image Hb).
  - destruct images as [[| first rest] |]; try reflexivity.
    simpl. now rewrite length_map.
Qed.

Lemma user_product_image_hooks_witness :
  setUserImageURL (Some "https://shop.example")
    (setUserImageURL (Some "https://shop.example") (Some "me.png"))
  = Some "https://shop.example/uploads/users/me.png" /\
  setProductImageURL (Some "https://shop.example")
    (setProductImageURL (Some "https://shop.example") (Some ["a.png"; "http://cdn/b.png"]))
  = Some ["https://shop.example/uploads/products/a.png"; "http://cdn/b.png"].
Proof.
  destruct (user_product_image_hooks_idempotent "https://shop.example" (Some "me.png")
              (Some ["a.png"; "http://cdn/b.png"])) as (Huser & Hproduct & _).
  - reflexivity.
  - split; [rewrite Huser | rewrite Hproduct]; reflexivity.
Defined.

(** X9. Without [BASE_URL] the user hook is not idempotent: the prefix
    it adds starts with "undefined", so a relative image gets one more
    prefix every time the hook runs. *)
Theorem user_image_hook_stacks_without_base_url :
  forall image,
    image <> "" -> slice4 image <> "http" ->
    setUserImageURL None (Some image) = Some ("undefined/uploads/users/" +:+ image) /\
    setUserImageURL None (setUserImageURL None (Some image))
    = Some ("undefined/uploads/users/" +:+ "undefined/uploads/users/" +:+ image).
Proof.
  intros image Hne Hrel. unfold setUserImageURL, prefixImage. simpl.
  rewrite (bool_decide_eq_false_2 _ Hne), (bool_decide_eq_false_2 _ Hrel).
  split; [reflexivity |].
  rewrite bool_decide_eq_false_2 by discriminate.
  rewrite bool_decide_eq_false_2 by discriminate.
  reflexivity.
Qed.

Lemma user_image_hook_stacks_witness :
  setUserImageURL None (setUserImageURL None (Some "me.png"))
  = Some "undefined/uploads/users/undefined/uploads/users/me.png".
Proof.
  destruct (user_image_hook_stacks_without_base_url "me.png") as (_ & Htwice).
  - discriminate.
  - discriminate.
  - rewrite Htwice. reflexivity.
Defined.

End ModelsFacts.

Module OrderFacts.
Import Http Shop Models ShopFacts.

(** ** The life of an order *)

Lemma save_markDelivered_fields now o :
  let o' := save now o (markDelivered now o) in
  isDelivered o' = true /\ deliveredAt o' = Some now /\
  isPaid o' = isPaid o /\ paidAt o' = paidAt o /\ sameSnapshot o o'.
Proof.
  cbv zeta. unfold save, sameSnapshot. case_bool_decide as Hsame.
  - rewrite <- Hsame at 1 2. simpl. repeat split; reflexivity.
  - simpl. repeat split; reflexivity.
Qed.

Lemma save_markPaid_fields now o :
  let o' := save now o (markPaid now o) in
  isPaid o' = true /\ paidAt o' = Some now /\
  isDelivered o' = isDelivered o /\ deliveredAt o' = deliveredAt o /\ sameSnapshot o o'.
Proof.
  cbv zeta. unfold sameSnapshot.
  destruct (save_markPaid now o)
    as (Hp & Hpa & Hu & Hi & Htax & Hsa & Hsp & Htot & Hpm & Hd & Hda & Hc).
  repeat split; congruence.
Qed.

Lemma updateOrderToDelivered_found id now db o :
  orders db !! id = Some o ->
  updateOrderToDelivered id now db
  = (Respond 200 (Success id (save now o (markDelivered now o))),
     mkDb (carts db) (products db) (<[id := save now o (markDelivered now o)]> (orders db))
          (users db)).
Proof. intros H. unfold updateOrderToDelivered. now rewrite (findById_found _ _ _ H). Qed.

Lemma status_delivered o : isDelivered o = true -> status o = "Delivered".
Proof. unfold status. now intros ->. Qed.

(** X10. Marking an order delivered does not ask whether it is paid: for
    every order that exists the answer is 200, the order is delivered at
    the time of the request and its status reads "Delivered", while its
    paid flag and time are what they were. *)
Theorem updateOrderToDelivered_ignores_payment :
  forall id now db o,
    orders db !! id = Some o ->
    exists o',
      fst (updateOrderToDelivered id now db) = Respond 200 (Success id o') /\
      orders (snd (updateOrderToDelivered id now db)) !! id = Some o' /\
      isDelivered o' = true /\ deliveredAt o' = Some now /\ status o' = "Delivered" /\
      isPaid o' = isPaid o /\ paidAt o' = paidAt o.
Proof.
  intros id now db o Ho. rewrite (updateOrderToDelivered_found id now db o Ho). simpl.
  destruct (save_markDelivered_fields now o) as (Hd & Hda & Hp & Hpa & _).
  exists (save now o (markDelivered now o)).
  split; [reflexivity |]. split; [apply lookup_insert_eq |].
  split; [exact Hd |]. split; [exact Hda |]. split; [now apply status_delivered |].
  split; assumption.
Qed.

Lemma updateOrderToDelivered_witness :
  exists o',
    orders (snd (updateOrderToDelivered order1 2000 exampleOrders)) !! order1 = Some o' /\
    status o' = "Delivered" /\ isPaid o' = false.
Proof.
  destruct (updateOrderToDelivered_ignores_payment order1 2000 exampleOrders exampleOrder)
    as (o' & _ & Ho' & _ & _ & Hst & Hp & _).
  - reflexivity.
  - exists o'. split; [exact Ho' |]. split; [exact Hst |]. rewrite Hp. reflexivity.
Defined.

(** X11. Paying and delivering commute: in either order the order ends
    paid at the time of the payment and delivered at the time of the
    delivery, with the same purchase recorded. *)
Theorem pay_and_deliver_commute :
  forall id tp td db o,
    orders db !! id = Some o ->
    let paidFirst := snd (updateOrderToDelivered id td (snd (updateOrderToPaid id tp db))) in
    let deliveredFirst := snd (updateOrderToPaid id tp (snd (updateOrderToDelivered id td db))) in
    exists a b,
      orders paidFirst !! id = Some a /\ orders deliveredFirst !! id = Some b /\
      isPaid a = true /\ isPaid b = true /\ isDelivered a = true /\ isDelivered b = true /\
      paidAt a = Some tp /\ paidAt b = Some tp /\
      deliveredAt a = Some td /\ deliveredAt b = Some td /\
      sameSnapshot a b.
Proof.
  intros id tp td db o Ho.
  rewrite (updateOrderToPaid_found id tp db o Ho),
          (updateOrderToDelivered_found id td db o Ho). cbv zeta. simpl.
  set (p := save tp o (markPaid tp o)).
  set (d := save td o (markDelivered td o)).
  erewrite (updateOrderToDelivered_found id td _ p) by apply lookup_insert_eq.
  erewrite (updateOrderToPaid_found id tp _ d) by apply lookup_insert_eq.
  simpl.
  exists (save td p (markDelivered td p)), (save tp d (markPaid tp d)).
  destruct (save_markPaid_fields tp o) as (P1 & P2 & P3 & P4 & P5).
  destruct (save_markDelivered_fields td o) as (D1 & D2 & D3 & D4 & D5).
  destruct (save_markDelivered_fields td p) as (A1 & A2 & A3 & A4 & A5).
  destruct (save_markPaid_fields tp d) as (B1 & B2 & B3 & B4 & B5).
  fold p in P1, P2, P3, P4, P5. fold d in D1, D2, D3, D4, D5.
  split; [apply lookup_insert_eq |]. split; [apply lookup_insert_eq |].
  unfold sameSnapshot in *.
  repeat split; try congruence; intuition congruence.
Qed.

Lemma pay_and_deliver_witness :
  exists a b,
    orders (snd (updateOrderToDelivered order1 2000
                   (snd (updateOrderToPaid order1 1000 exampleOrders)))) !! order1
    = Some a /\
    orders (snd (updateOrderToPaid order1 1000
                   (snd (updateOrderToDelivered order1 2000 exampleOrders)))) !! order1
    = Some b /\
    paidAt a = paidAt b /\ deliveredAt a = deliveredAt b.
Proof.
  destruct (pay_and_deliver_commute order1 1000 2000 exampleOrders exampleOrder)
    as (a & b & Ha & Hb & _ & _ & _ & _ & Hpa & Hpb & Hda & Hdb & _).
  - reflexivity.
  - exists a, b. split; [exact Ha |]. split; [exact Hb |]. split; congruence.
Defined.

(** X12. An identifier that is an ObjectId (24 hexadecimal characters)
    and resolves to no order makes both markings fail with 404 and a
    message that contains the identifier; one that is not an ObjectId is
    rejected by the lookup itself, and the request is answered with 500.
    Either way nothing is written. *)
Theorem unknown_order_is_not_found :
  forall id now db,
    orders db !! id = None ->
    snd (updateOrderToPaid id now db) = db /\
    snd (updateOrderToDelivered id now db) = db /\
    (isObjectId id = true ->
     notFoundNaming id (fst (updateOrderToPaid id now db)) /\
     notFoundNaming id (fst (updateOrderToDelivered id now db))) /\
    (isObjectId id = false ->
     httpStatus (fst (updateOrderToPaid id now db)) = 500 /\
     httpStatus (fst (updateOrderToDelivered id now db)) = 500).
Proof.
  intros id now db Hnone. unfold updateOrderToPaid, updateOrderToDelivered.
  assert (forall B, notFoundNaming id
            (@Next B (ApiError ("There is no such a order with this id:" +:+ id) 404))) as Hmsg.
  { intros B. split; [reflexivity |]. eexists. split; [reflexivity |].
    apply ServicesFacts.contains_suffix. }
  destruct (isObjectId id) eqn:Hid;
    [rewrite (findById_missing _ _ Hnone Hid) | rewrite (findById_cast _ _ Hnone Hid)];
    simpl; (split; [reflexivity |]); (split; [reflexivity |]);
    (split; [intros ? | intros ?]); first [discriminate | now split].
Qed.

Lemma unknown_order_witness :
  notFoundNaming order9
    (fst (updateOrderToPaid order9 1000 exampleOrders)) /\
  snd (updateOrderToDelivered order9 1000 exampleOrders) = exampleOrders /\
  httpStatus (fst (updateOrderToPaid "order-9" 1000 exampleOrders)) = 500.
Proof.
  destruct (unknown_order_is_not_found order9 1000 exampleOrders)
    as (_ & H2 & Hwell & _); [reflexivity |].
  destruct (unknown_order_is_not_found "order-9" 1000 exampleOrders)
    as (_ & _ & _ & Hcast); [reflexivity |].
  split; [apply (Hwell eq_refl) |]. split; [exact H2 |]. apply (Hcast eq_refl).
Defined.

(** ** Sequences of operations *)

Lemma sameSnapshot_refl o : sameSnapshot o o.
Proof. unfold sameSnapshot. repeat split; reflexivity. Qed.

Lemma sameSnapshot_trans a b c : sameSnapshot a b -> sameSnapshot b c -> sameSnapshot a c.
Proof. unfold sameSnapshot. intuition congruence. Qed.

Lemma runOp_keeps_snapshot op db id o :
  orders db !! id = Some o ->
  exists o', orders (runOp db op) !! id = Some o' /\ sameSnapshot o o'.
Proof.
  intros Ho.
  assert (forall oid new (O' : gmap ObjectId Order),
            createOrder oid new (orders db) = inr O' -> O' !! id = Some o) as Hcreate.
  { intros oid new O'. unfold createOrder.
    destruct (orders db !! oid) eqn:Hoid; [discriminate |].
    intros [= <-]. rewrite lookup_insert_ne by congruence. exact Ho. }
  destruct op as [req now oid | session now oid | id' now | id' now]; simpl.
  - exists o. split; [| apply sameSnapshot_refl]. unfold createCashOrder.
    destruct (findById_cases (cartId req) (carts db)) as [(e & -> & _) | ->]; [exact Ho |].
    destruct (carts db !! cartId req); [| exact Ho].
    destruct (createOrder _ _ _) eqn:Hc; [exact Ho |]. simpl. eapply Hcreate, Hc.
  - exists o. split; [| apply sameSnapshot_refl]. unfold createCardOrder.
    destruct (findById_cases (sessionCart session) (carts db)) as [(e & -> & _) | ->];
      [exact Ho |].
    destruct (findOneByEmail _ _) as [[uid u] |]; [| exact Ho].
    destruct (carts db !! sessionCart session); [| exact Ho].
    destruct (createOrder _ _ _) eqn:Hc; [exact Ho |]. simpl. eapply Hcreate, Hc.
  - unfold updateOrderToPaid.
    destruct (findById_cases id' (orders db)) as [(e & -> & _) | ->];
      [exists o; split; [exact Ho | apply sameSnapshot_refl] |].
    destruct (orders db !! id') as [stored |] eqn:Hid'; simpl;
      [| exists o; split; [exact Ho | apply sameSnapshot_refl]].
    destruct (decide (id' = id)) as [-> | Hne].
    + rewrite Ho in Hid'. injection Hid' as <-.
      exists (save now o (markPaid now o)). rewrite lookup_insert_eq.
      split; [reflexivity |]. apply save_markPaid_fields.
    + exists o. rewrite lookup_insert_ne by exact Hne.
      split; [exact Ho | apply sameSnapshot_refl].
  - unfold updateOrderToDelivered.
    destruct (findById_cases id' (orders db)) as [(e & -> & _) | ->];
      [exists o; split; [exact Ho | apply sameSnapshot_refl] |].
    destruct (orders db !! id') as [stored |] eqn:Hid'; simpl;
      [| exists o; split; [exact Ho | apply sameSnapshot_refl]].
    destruct (decide (id' = id)) as [-> | Hne].
    + rewrite Ho in Hid'. injection Hid' as <-.
      exists (save now o (markDelivered now o)). rewrite lookup_insert_eq.
      split; [reflexivity |]. apply save_markDelivered_fields.
    + exists o. rewrite lookup_insert_ne by exact Hne.
      split; [exact Ho | apply sameSnapshot_refl].
Qed.

(** X13. What an order records of the purchase never changes: along any
    sequence of cash orders, card orders and markings, an order keeps its
    user, its lines, its prices and total, its address, its payment method
    and its creation time. *)
Theorem order_snapshot_is_immutable :
  forall ops db id o,
    orders db !! id = Some o ->
    exists o', orders (runOps ops db) !! id = Some o' /\ sameSnapshot o o'.
Proof.
  induction ops as [| op rest IH]; intros db id o Ho.
  - exists o. split; [exact Ho | apply sameSnapshot_refl].
  - destruct (runOp_keeps_snapshot op db id o Ho) as (o1 & Ho1 & H1).
    destruct (IH (runOp db op) id o1 Ho1) as (o' & Ho' & H').
    exists o'. split; [exact Ho' |]. eapply sameSnapshot_trans; eassumption.
Qed.

Lemma order_snapshot_witness :
  exists o',
    orders (runOps [ToPaid order1 1000; CashOrder exampleRequest 1500 order1;
                    ToDelivered order1 2000] exampleOrders) !! order1 = Some o' /\
    totalOrderPrice o' = 25.
Proof.
  destruct (order_snapshot_is_immutable
              [ToPaid order1 1000; CashOrder exampleRequest 1500 order1;
               ToDelivered order1 2000] exampleOrders order1 exampleOrder)
    as (o' & Ho' & Hsame).
  - reflexivity.
  - exists o'. split; [exact Ho' |].
    destruct Hsame as (_ & _ & _ & _ & _ & Htotal & _). rewrite <- Htotal. reflexivity.
Defined.

Lemma progress_mono (o o' : Order) :
  (isPaid o = true -> isPaid o' = true) ->
  (isDelivered o = true -> isDelivered o' = true) ->
  (progress o <= progress o')%nat /\
  (status o = "Delivered" -> status o' = "Delivered") /\
  (status o = "Paid" -> status o' <> "Pending").
Proof.
  unfold progress, status.
  destruct (isPaid o), (isDelivered o), (isPaid o'), (isDelivered o');
    intros Hp Hd; try (specialize (Hp eq_refl)); try (specialize (Hd eq_refl));
    try discriminate; repeat split; try lia; try discriminate; auto.
Qed.

(** X14. The status of an order never goes back: along any sequence of
    operations it moves from "Pending" towards "Paid" and "Delivered"
    only; a delivered order stays delivered and a paid order never reads
    "Pending" again. *)
Theorem order_status_never_goes_back :
  forall ops db id o,
    orders db !! id = Some o ->
    exists o',
      orders (runOps ops db) !! id = Some o' /\
      (progress o <= progress o')%nat /\
      (status o = "Delivered" -> status o' = "Delivered") /\
      (status o = "Paid" -> status o' <> "Pending").
Proof.
  intros ops db id o Ho.
  assert (exists o', orders (runOps ops db) !! id = Some o' /\
                     (isPaid o = true -> isPaid o' = true) /\
                     (isDelivered o = true -> isDelivered o' = true)) as (o' & Ho' & Hp & Hd).
  { revert db o Ho. induction ops as [| op rest IH]; intros db o Ho.
    - exists o. auto.
    - destruct (runOp_keeps_orders op db id o Ho) as (o1 & Ho1 & Hp1 & Hd1).
      destruct (IH (runOp db op) o1 Ho1) as (o' & Ho' & Hp & Hd).
      exists o'. split; [exact Ho' |]. split; auto. }
  exists o'. split; [exact Ho' |]. now apply progress_mono.
Qed.

Lemma order_status_witness :
  exists o',
    orders (runOps [ToPaid order1 3000; CashOrder exampleRequest 3500 order1]
                   (snd (updateOrderToDelivered order1 2000 exampleOrders))) !! order1
    = Some o' /\
    status o' = "Delivered".
Proof.
  destruct (order_status_never_goes_back
              [ToPaid order1 3000; CashOrder exampleRequest 3500 order1]
              (snd (updateOrderToDelivered order1 2000 exampleOrders)) order1
              (save 2000 exampleOrder (markDelivered 2000 exampleOrder)))
    as (o' & Ho' & _ & Hdel & _).
  - reflexivity.
  - exists o'. split; [exact Ho' |]. apply Hdel. reflexivity.
Defined.

End OrderFacts.

Module CheckoutFacts.
Import Http Shop Models ShopFacts.

(** ** What a cash order touches *)

(** The stock theorem at the example: productA goes from 10 to 8. *)
Lemma createCashOrder_stock_witness :
  exists doc',
    products (snd (createCashOrder exampleRequest 1000 order1 exampleDb)) !! productA
    = Some doc' /\
    default 0 (doc' !! "quantity") = 8 /\ doc' !! "sold" = None.
Proof.
  destruct (createCashOrder_stock exampleRequest 1000 order1 exampleDb exampleCart
              productA {[ "quantity" := 10; "price" := 10 ]})
    as (_ & doc' & Hdoc' & Hq & Hsold).
  - reflexivity.
  - reflexivity.
  - reflexivity.
  - exists doc'. split; [exact Hdoc' |]. split; [rewrite Hq | rewrite Hsold]; reflexivity.
Defined.

Lemma writeOne_other now (P : gmap ObjectId (gmap string Z)) op pid :
  filterId op <> pid -> writeOne now P op !! pid = P !! pid.
Proof.
  intros Hne. unfold writeOne. destruct (P !! filterId op); [| reflexivity].
  now rewrite lookup_insert_ne.
Qed.

Lemma writeOne_absent now (P : gmap ObjectId (gmap string Z)) op pid :
  P !! pid = None -> writeOne now P op !! pid = None.
Proof.
  intros Hnone. unfold writeOne. destruct (P !! filterId op) eqn:Hop; [| exact Hnone].
  rewrite lookup_insert_ne; [exact Hnone | congruence].
Qed.

Lemma bulkWrite_cons now item rest (P : gmap ObjectId (gmap string Z)) :
  bulkWrite now (bulkOption (item :: rest)) P
  = bulkWrite now (bulkOption rest)
      (writeOne now P (mkUpdateOne (product item)
                                   [("quantity", - quantity item); ("sold", quantity item)])).
Proof. reflexivity. Qed.

Lemma bulkWrite_untouched now items :
  forall (P : gmap ObjectId (gmap string Z)) pid,
    Forall (fun item => product item <> pid) items ->
    bulkWrite now (bulkOption items) P !! pid = P !! pid.
Proof.
  induction items as [| item rest IH]; intros P pid Hall; [reflexivity |].
  inversion Hall as [| ? ? Hitem Hrest]; subst.
  rewrite bulkWrite_cons, (IH _ pid Hrest). now apply writeOne_other.
Qed.

Lemma bulkWrite_absent now items :
  forall (P : gmap ObjectId (gmap string Z)) pid,
    P !! pid = None -> bulkWrite now (bulkOption items) P !! pid = None.
Proof.
  induction items as [| item rest IH]; intros P pid Hnone; [exact Hnone |].
  rewrite bulkWrite_cons. apply IH. now apply writeOne_absent.
Qed.

(** X16. A cash order touches nothing but its own cart, the products on
    its lines and the one new order: the users and every other cart stay,
    a product that is on no line of the cart is not written, no product
    document is created for a line whose product does not exist, and the
    orders are the old ones plus exactly one. *)
Theorem createCashOrder_touches_nothing_else :
  forall req now oid db cart,
    carts db !! cartId req = Some cart ->
    orders db !! oid = None ->
    let db' := snd (createCashOrder req now oid db) in
    users db' = users db /\
    (forall c, c <> cartId req -> carts db' !! c = carts db !! c) /\
    (forall pid, Forall (fun item => product item <> pid) (cartItems cart) ->
                 products db' !! pid = products db !! pid) /\
    (forall pid, products db !! pid = None -> products db' !! pid = None) /\
    (forall id, id <> oid -> orders db' !! id = orders db !! id) /\
    size (orders db') = S (size (orders db)).
Proof.
  intros req now oid db cart Hcart Hfresh.
  rewrite (createCashOrder_found req now oid db cart Hcart Hfresh). cbv zeta. simpl.
  split; [reflexivity |].
  split; [intros c Hc; now rewrite lookup_delete_ne by congruence |].
  split; [intros pid Hpid; now apply bulkWrite_untouched |].
  split; [intros pid Hpid; now apply bulkWrite_absent |].
  split; [intros id Hid; now rewrite lookup_insert_ne by congruence |].
  now apply map_size_insert_None.
Qed.

Lemma createCashOrder_touches_witness :
  let db' := snd (createCashOrder exampleRequest 1000 order1 exampleDb) in
  users db' = users exampleDb /\
  products db' !! productC = None /\
  size (orders db') = 1%nat.
Proof.
  cbv zeta.
  destruct (createCashOrder_touches_nothing_else exampleRequest 1000 order1 exampleDb
              exampleCart) as (Hu & _ & _ & Habsent & _ & Hsize).
  - reflexivity.
  - reflexivity.
  - split; [exact Hu |]. split; [apply Habsent; reflexivity |].
    rewrite Hsize. reflexivity.
Defined.

(** ** Card orders *)

Lemma createCardOrder_found session now oid db cart uid u :
  findOneByEmail (sessionEmail session) (users db) = Some (uid, u) ->
  carts db !! sessionCart session = Some cart ->
  orders db !! oid = None ->
  let order := mkOrder uid (cartItems cart) 0 (sessionMetadata session) 0
                       (amount_total session / 100) card true (Some now) false None now now in
  createCardOrder session now oid db
  = (None,
     mkDb (delete (sessionCart session) (carts db))
          (bulkWrite now (bulkOption (cartItems cart)) (products db))
          (<[oid := order]> (orders db))
          (users db)).
Proof.
  intros Huser Hcart Hfresh. unfold createCardOrder, createOrder.
  rewrite (findById_found _ _ _ Hcart), Huser, Hfresh. reflexivity.
Qed.

(** X17. A card order is created paid: for a session whose buyer and
    cart exist, the order belongs to the user with the session's e-mail,
    copies the lines of the cart, is paid at the time of the callback with
    method card, and the cart and the stock end exactly as after a cash
    order on that cart. When the amount the provider reports is a whole
    number of currency units (a multiple of 100, within the integers a
    Number holds exactly), the total of the order is that number. *)
Theorem card_order_is_paid_and_acts_like_cash :
  forall session req now oid db cart uid u,
    findOneByEmail (sessionEmail session) (users db) = Some (uid, u) ->
    carts db !! sessionCart session = Some cart ->
    orders db !! oid = None ->
    cartId req = sessionCart session ->
    fst (createCardOrder session now oid db) = None /\
    let db' := snd (createCardOrder session now oid db) in
    (exists order,
       orders db' !! oid = Some order /\
       user order = uid /\ orderItems order = cartItems cart /\
       isPaid order = true /\ paidAt order = Some now /\
       paymentMethodType order = card /\ isDelivered order = false /\
       status order = "Paid" /\
       (forall units, amount_total session = units * 100 -> safeInteger (units * 100) = true ->
                      totalOrderPrice order = units)) /\
    carts db' = carts (snd (createCashOrder req now oid db)) /\
    products db' = products (snd (createCashOrder req now oid db)) /\
    carts db' !! sessionCart session = None.
Proof.
  intros session req now oid db cart uid u Huser Hcart Hfresh Hreq.
  rewrite (createCardOrder_found session now oid db cart uid u Huser Hcart Hfresh).
  rewrite <- Hreq in Hcart.
  rewrite (createCashOrder_found req now oid db cart Hcart Hfresh).
  cbv zeta. simpl. split; [reflexivity |].
  split.
  { eexists; split; [apply lookup_insert_eq |]. repeat split; try reflexivity.
    intros units Hunits _. simpl. rewrite Hunits. apply Z.div_mul. lia. }
  rewrite Hreq. split; [reflexivity |]. split; [reflexivity |]. apply lookup_delete_eq.
Qed.

(** X18. The amount survives the trip through the provider for a cart
    whose total is a whole number of currency units, with its hundredfold
    within the integers a Number holds exactly: when the session reports
    the amount the checkout put on its line item, the card order gets the
    total a cash order on the same cart gets. *)
Theorem card_order_total_round_trip :
  forall session req now oid db cart uid u,
    findOneByEmail (sessionEmail session) (users db) = Some (uid, u) ->
    carts db !! sessionCart session = Some cart ->
    orders db !! oid = None ->
    cartId req = sessionCart session ->
    safeInteger (cartPrice cart * 100) = true ->
    List.map amount (line_items (sessionParams req (cartPrice cart + 0 + 0)))
    = [amount_total session] ->
    exists cardOrder cashOrder,
      orders (snd (createCardOrder session now oid db)) !! oid = Some cardOrder /\
      orders (snd (createCashOrder req now oid db)) !! oid = Some cashOrder /\
      totalOrderPrice cardOrder = totalOrderPrice cashOrder /\
      totalOrderPrice cardOrder = cartPrice cart.
Proof.
  intros session req now oid db cart uid u Huser Hcart Hfresh Hreq _ Hamount.
  rewrite (createCardOrder_found session now oid db cart uid u Huser Hcart Hfresh).
  rewrite <- Hreq in Hcart.
  rewrite (createCashOrder_found req now oid db cart Hcart Hfresh).
  cbv zeta. simpl. simpl in Hamount. injection Hamount as Hamount.
  do 2 eexists. split; [apply lookup_insert_eq |]. split; [apply lookup_insert_eq |].
  simpl. rewrite <- Hamount, Z.div_mul by lia. split; lia.
Qed.

(** The user, the session and the database of a paid checkout of the
    example cart. *)
Lemma card_order_witness :
  let session := mkSession cart1 None 2500 "user1@example.com" in
  fst (createCardOrder session 1000 order1 exampleDb) = None /\
  exists cardOrder,
    orders (snd (createCardOrder session 1000 order1 exampleDb)) !! order1
    = Some cardOrder /\
    isPaid cardOrder = true /\ totalOrderPrice cardOrder = 25.
Proof.
  cbv zeta.
  destruct (card_order_is_paid_and_acts_like_cash
              (mkSession cart1 None 2500 "user1@example.com") exampleRequest
              1000 order1 exampleDb exampleCart user1 (mkUser "user1@example.com"))
    as (Hnone & (order & Horder & _ & _ & Hpaid & _ & _ & _ & _ & Htotal) & _).
  - vm_compute. reflexivity.
  - reflexivity.
  - reflexivity.
  - reflexivity.
  - split; [exact Hnone |]. exists order. split; [exact Horder |].
    split; [exact Hpaid |]. apply Htotal; reflexivity.
Defined.

Lemma card_order_total_witness :
  exists cardOrder,
    orders (snd (createCardOrder (mkSession cart1 None 2500 "user1@example.com")
                                 1000 order1 exampleDb)) !! order1 = Some cardOrder /\
    totalOrderPrice cardOrder = 25.
Proof.
  destruct (card_order_total_round_trip
              (mkSession cart1 None 2500 "user1@example.com") exampleRequest
              1000 order1 exampleDb exampleCart user1 (mkUser "user1@example.com"))
    as (cardOrder & cashOrder & Hcard & _ & _ & Htotal).
  - vm_compute. reflexivity.
  - reflexivity.
  - reflexivity.
  - reflexivity.
  - reflexivity.
  - reflexivity.
  - exists cardOrder. split; [exact Hcard |]. rewrite Htotal. reflexivity.
Defined.

(** X19. A callback delivered twice creates one order: after a card
    order that went through, running it again for the same session fails
    on the cart that is gone and writes nothing. *)
Theorem card_order_replay_creates_nothing :
  forall session now oid db db',
    createCardOrder session now oid db = (None, db') ->
    forall now2 oid2,
      exists err, createCardOrder session now2 oid2 db' = (Some err, db').
Proof.
  intros session now oid db db'. unfold createCardOrder at 1.
  destruct (findById_cases (sessionCart session) (carts db)) as [(e & -> & _) | ->];
    [discriminate |].
  destruct (findOneByEmail (sessionEmail session) (users db)) as [[uid u] |] eqn:Huser;
    [| discriminate].
  destruct (carts db !! sessionCart session) as [cart |]; [| discriminate].
  destruct (createOrder _ _ _); [discriminate |].
  intros [= <-] now2 oid2. unfold createCardOrder, findById. simpl.
  rewrite lookup_delete_eq.
  destruct (isObjectId (sessionCart session)); [rewrite Huser |]; eauto.
Qed.

Lemma card_order_replay_witness :
  let session := mkSession cart1 None 2500 "user1@example.com" in
  exists err,
    createCardOrder session 2000 order2 (snd (createCardOrder session 1000 order1 exampleDb))
    = (Some err, snd (createCardOrder session 1000 order1 exampleDb)).
Proof.
  cbv zeta.
  apply (card_order_replay_creates_nothing
           (mkSession cart1 None 2500 "user1@example.com") 1000 order1 exampleDb).
  rewrite (createCardOrder_found _ 1000 order1 exampleDb exampleCart user1
             (mkUser "user1@example.com")); [reflexivity | vm_compute; reflexivity | reflexivity..].
Defined.

(** ** The callback, verified *)

(** X20. A callback that passes the signature check is always answered
    with 200 and [{ received: true }], whatever becomes of the order: an
    event of another type writes nothing, and a completed checkout leaves
    what [createCardOrder] leaves, also when that fails. *)
Theorem webhook_verified_always_received :
  forall (constructEvent : string -> option string -> option string -> string + Event)
         body sig secret now oid db event,
    constructEvent body sig secret = inr event ->
    fst (webhookCheckout constructEvent body sig secret now oid db) = Respond 200 Received /\
    (eventType event <> "checkout.session.completed" ->
     snd (webhookCheckout constructEvent body sig secret now oid db) = db) /\
    (eventType event = "checkout.session.completed" ->
     snd (webhookCheckout constructEvent body sig secret now oid db)
     = snd (createCardOrder (dataObject event) now oid db)) /\
    (eventType event = "checkout.session.completed" ->
     carts db !! sessionCart (dataObject event) = None ->
     snd (webhookCheckout constructEvent body sig secret now oid db) = db).
Proof.
  intros constructEvent body sig secret now oid db event Hev.
  unfold webhookCheckout. rewrite Hev. simpl.
  split; [reflexivity |].
  split; [intros Hne; now rewrite bool_decide_eq_false_2 |].
  split; [intros He; now rewrite bool_decide_eq_true_2 |].
  intros He Hcart. rewrite bool_decide_eq_true_2 by exact He.
  unfold createCardOrder.
  destruct (findById_cases (sessionCart (dataObject event)) (carts db))
    as [(e & -> & _) | ->]; [reflexivity |].
  rewrite Hcart.
  destruct (findOneByEmail _ _) as [[uid u] |]; reflexivity.
Qed.

Lemma webhook_verified_witness :
  let event := mkEvent "checkout.session.completed"
                       (mkSession cart9 None 2500 "user1@example.com") in
  webhookCheckout (fun _ _ _ => inr event) "{}" (Some "t=1,v1=00") (Some "whsec_test")
                  1000 order1 exampleDb
  = (Respond 200 Received, exampleDb).
Proof.
  cbv zeta.
  destruct (webhook_verified_always_received
              (fun _ _ _ => inr (mkEvent "checkout.session.completed"
                                         (mkSession cart9 None 2500 "user1@example.com")))
              "{}" (Some "t=1,v1=00") (Some "whsec_test") 1000 order1 exampleDb
              (mkEvent "checkout.session.completed"
                       (mkSession cart9 None 2500 "user1@example.com")))
    as (Hreply & _ & _ & Hsame).
  - reflexivity.
  - rewrite (surjective_pairing (webhookCheckout _ _ _ _ _ _ _)).
    rewrite Hreply, Hsame; reflexivity.
Defined.

End CheckoutFacts.

Module AccountFacts.
Import Http Validator Services Account ServicesFacts.

Section Users.
Context {Doc : Type}.
Variable applyUpdate : list (string * FilterValue) -> Doc -> Doc.
Variable refuses : ObjectId -> list (string * FilterValue) -> gmap ObjectId Doc -> option Refusal.

(** X21. Only the listed fields of the body reach the database: two
    bodies that agree on fname, lname, email, phone and profileImage give
    the same answer and the same collection through
    [updateLoggedUserData] (role, password and active cannot be set that
    way), and two bodies that agree on those and on role give the same
    through [updateUser]. *)
Theorem user_updates_read_listed_fields_only :
  forall (User : gmap ObjectId Doc) id a b,
    (agreeOn ["fname"; "lname"; "email"; "phone"; "profileImage"] a b ->
     updateLoggedUserData applyUpdate refuses User id a
     = updateLoggedUserData applyUpdate refuses User id b) /\
    (agreeOn ["fname"; "lname"; "phone"; "email"; "profileImage"; "role"] a b ->
     updateUser applyUpdate refuses User id a = updateUser applyUpdate refuses User id b).
Proof.
  intros User id a b. unfold agreeOn, updateLoggedUserData, updateUser.
  split; intros Hagree;
    repeat match goal with
           | H : Forall _ (_ :: _) |- _ =>
               let Hk := fresh "Hk" in
               apply Forall_cons in H as [Hk H]; rewrite Hk
           end;
    reflexivity.
Qed.

(** X22. The handlers of the logged user never signal Not-Found and
    never remove a document: whatever they answer, the collection holds
    the same identifiers afterwards. When the database accepts the update,
    [deleteLoggedUserData] answers 204 and [updateLoggedUserData] answers
    200 whether the user exists or not, and when the user does not exist
    the collection is unchanged and the data answered is null. When the
    database refuses the update (an email that is already taken, a value
    that cannot be cast), the request ends in that error, answered with
    500, and the collection is unchanged. *)
Theorem logged_user_handlers_keep_the_document :
  forall (User : gmap ObjectId Doc) id body,
    let update := [("fname", field "fname" body); ("lname", field "lname" body);
                   ("email", field "email" body); ("phone", field "phone" body);
                   ("profileImage", field "profileImage" body)] in
    let off := [("active", FJson (JBool false))] in
    dom (snd (deleteLoggedUserData applyUpdate refuses User id)) = dom User /\
    dom (snd (updateLoggedUserData applyUpdate refuses User id body)) = dom User /\
    httpStatus (fst (deleteLoggedUserData applyUpdate refuses User id)) <> 404 /\
    httpStatus (fst (updateLoggedUserData applyUpdate refuses User id body)) <> 404 /\
    (refuses id off User = None ->
     fst (deleteLoggedUserData applyUpdate refuses User id) = Respond 204 "Success" /\
     (User !! id = None -> snd (deleteLoggedUserData applyUpdate refuses User id) = User)) /\
    (refuses id update User = None ->
     httpStatus (fst (updateLoggedUserData applyUpdate refuses User id body)) = 200 /\
     (User !! id = None ->
      updateLoggedUserData applyUpdate refuses User id body = (Respond 200 None, User))) /\
    (forall r, refuses id update User = Some r ->
               updateLoggedUserData applyUpdate refuses User id body
               = (Next (refusalError r), User) /\
               httpStatus (fst (updateLoggedUserData applyUpdate refuses User id body)) = 500).
Proof.
  intros User id body update off.
  assert (forall d' : Doc, User !! id <> None -> dom (<[id := d']> User) = dom User) as Hdom.
  { intros d' Hsome. destruct (User !! id) eqn:Hid; [| congruence].
    apply dom_insert_lookup_L. eauto. }
  unfold deleteLoggedUserData, updateLoggedUserData, findByIdAndUpdate.
  fold update. fold off.
  destruct (refuses id off User) as [roff |], (refuses id update User) as [rup |];
    destruct (User !! id) as [d |] eqn:Hid; cbn [fst snd httpStatus];
    rewrite ?Hdom by congruence;
    repeat split; try reflexivity; try discriminate; try congruence;
    try (intros r [= <-]; reflexivity);
    try (destruct roff; simpl; discriminate);
    try (destruct rup; simpl; discriminate);
    try (intros r [= <-]; destruct r; reflexivity);
    destruct rup; reflexivity.
Qed.

End Users.

Lemma logged_user_witness :
  let applyUpdate := fun (_ : list (string * FilterValue)) (d : string) => d in
  let refuses := fun (_ : ObjectId) (_ : list (string * FilterValue))
                     (_ : gmap ObjectId string) => @None Refusal in
  updateLoggedUserData applyUpdate refuses ({[ user1 := "Ann" ]} : gmap ObjectId string)
                       user9 (JObj [("role", JStr "admin")])
  = (Respond 200 None, {[ user1 := "Ann" ]}).
Proof.
  cbv zeta.
  destruct (logged_user_handlers_keep_the_document (fun _ (d : string) => d)
              (fun _ _ _ => None)
              ({[ user1 := "Ann" ]} : gmap ObjectId string) user9
              (JObj [("role", JStr "admin")])) as (_ & _ & _ & _ & _ & Haccepted & _).
  destruct (Haccepted eq_refl) as [_ Hmissing].
  apply Hmissing. apply lookup_singleton_ne. discriminate.
Defined.

Lemma user_updates_witness :
  let applyUpdate := fun (_ : list (string * FilterValue)) (d : string) => d in
  let refuses := fun (_ : ObjectId) (_ : list (string * FilterValue))
                     (_ : gmap ObjectId string) => @None Refusal in
  updateLoggedUserData applyUpdate refuses ({[ user1 := "Ann" ]} : gmap ObjectId string)
                       user1 (JObj [("fname", JStr "Ann"); ("role", JStr "admin")])
  = updateLoggedUserData applyUpdate refuses ({[ user1 := "Ann" ]} : gmap ObjectId string)
                         user1 (JObj [("fname", JStr "Ann")]).
Proof.
  cbv zeta.
  apply (user_updates_read_listed_fields_only (fun _ (d : string) => d) (fun _ _ _ => None)).
  repeat (first [apply Forall_nil_2 | apply Forall_cons_2]); reflexivity.
Defined.

End AccountFacts.

Module CatalogFacts.
Import Http Validator Services Validation Account ServicesFacts ValidationFacts.

(** ** Splitting on commas *)

Lemma splitComma_nonempty s : splitComma s <> [].
Proof.
  destruct s as [| c rest]; simpl; [discriminate |].
  case_bool_decide; [discriminate |]. destruct (splitComma rest); discriminate.
Qed.

(** X23. Splitting a query value on commas loses nothing: joining the
    pieces with commas gives the value back, no piece contains a comma,
    and a value without a comma is its own single piece. *)
Theorem splitComma_round_trip :
  forall s,
    joinWith "," (splitComma s) = s /\
    Forall (fun piece => includesComma piece = false) (splitComma s) /\
    (includesComma s = false -> splitComma s = [s]).
Proof.
  induction s as [| c rest IH].
  - split; [reflexivity |]. split; [| reflexivity].
    apply Forall_cons_2; [reflexivity | apply Forall_nil_2].
  - destruct IH as (Hjoin & Hpieces & Hsingle).
    simpl. case_bool_decide as Hc; simpl.
    + subst c. destruct (splitComma rest) as [| piece pieces] eqn:Hsplit;
        [now apply splitComma_nonempty in Hsplit |].
      split; [| split; [constructor; [reflexivity | exact Hpieces] | discriminate]].
      change (joinWith "," ("" :: piece :: pieces))
        with ("" +:+ "," +:+ joinWith "," (piece :: pieces)).
      now rewrite Hjoin.
    + destruct (splitComma rest) as [| piece pieces] eqn:Hsplit;
        [now apply splitComma_nonempty in Hsplit |].
      apply Forall_cons in Hpieces as [Hpiece Hrest].
      split; [| split].
      * destruct pieces as [| next pieces].
        -- simpl in *. now rewrite Hjoin.
        -- change (joinWith "," (String c piece :: next :: pieces))
             with (String c (piece +:+ "," +:+ joinWith "," (next :: pieces))).
           change (joinWith "," (piece :: next :: pieces))
             with (piece +:+ "," +:+ joinWith "," (next :: pieces)) in Hjoin.
           now rewrite Hjoin.
      * constructor; [| exact Hrest]. simpl.
        now rewrite (bool_decide_eq_false_2 _ Hc), Hpiece.
      * intros Hno. specialize (Hsingle Hno). now injection Hsingle as -> ->.
Qed.

(** ** The product listing *)

Section Products.
Context {Doc : Type}.
Variable holds : string -> FilterValue -> Doc -> bool.
Variable price : Doc -> Z.
Variable toNumber : string -> option Z.
Variable validRegExp : string -> bool.
Variable castError : string -> FilterValue -> option string.

Lemma queryStep_blank acc key :
  queryStep toNumber validRegExp acc (key, "") = acc.
Proof. destruct acc; reflexivity. Qed.

(** X24. In a query whose values are strings, a parameter with an empty
    value has no effect on the product listing, wherever it stands among
    the others: the listing is that of the query without it. *)
Theorem getProducts_ignores_blank_parameters :
  forall (M : gmap ObjectId Doc) before after key,
    NoDup (List.map fst (before ++ (key, "") :: after)%list) ->
    getProducts holds price toNumber validRegExp castError M (before ++ (key, "") :: after)%list
    = getProducts holds price toNumber validRegExp castError M (before ++ after)%list.
Proof.
  intros M before after key _. unfold getProducts.
  rewrite !fold_left_app. cbn [fold_left]. now rewrite queryStep_blank.
Qed.

Lemma queryStep_stores acc k v :
  v <> "" ->
  (exists e, queryStep toNumber validRegExp (inr acc) (k, v) = inl e) \/
  (exists stored,
     queryStep toNumber validRegExp (inr acc) (k, v) = inr (setProp k stored acc) /\
     (k = "min" \/ k = "max" -> stored = FNumber (toNumber v))).
Proof.
  intros Hv. unfold queryStep. rewrite (bool_decide_eq_false_2 _ Hv).
  destruct (bool_decide (k = "min") || bool_decide (k = "max")) eqn:Hbound.
  - right. eauto.
  - assert (~ (k = "min" \/ k = "max")) as Hno.
    { apply orb_false_iff in Hbound as [H1 H2].
      apply bool_decide_eq_false in H1, H2. tauto. }
    destruct (bool_decide (k = "category") || bool_decide (k = "brand")
              || bool_decide (k = "subcategory")).
    + destruct (includesComma v); right; eexists; (split; [reflexivity | tauto]).
    + destruct (validRegExp v); [right; eexists; split; [reflexivity | tauto] | left; eauto].
Qed.

(** What the rebuilt query holds under a bound ([min] or [max]). *)
Lemma rebuilt_bound key :
  key = "min" \/ key = "max" ->
  forall query acc current query',
    getProp key acc = (fun v => FNumber (toNumber v)) <$> current ->
    fold_left (queryStep toNumber validRegExp) query (inr acc) = inr query' ->
    getProp key query'
    = (fun v => FNumber (toNumber v))
        <$> fold_left (fun found kv =>
                         if bool_decide (fst kv = key) && negb (bool_decide (snd kv = ""))
                         then Some (snd kv) else found)
                      query current.
Proof.
  intros Hkey query.
  induction query as [| [k v] rest IH]; intros acc current query' Hacc Hfold.
  - simpl in *. injection Hfold as <-. exact Hacc.
  - cbn [fold_left fst snd] in *.
    destruct (decide (v = "")) as [-> | Hv].
    + rewrite queryStep_blank in Hfold.
      rewrite (bool_decide_eq_true_2 ("" = "")) by reflexivity.
      cbn [negb]. rewrite andb_false_r. eapply IH; eassumption.
    + rewrite (bool_decide_eq_false_2 _ Hv). cbn [negb]. rewrite andb_true_r.
      destruct (queryStep_stores acc k v Hv) as [[e He] | (stored & Hstep & Hstored)];
        rewrite ?He, ?Hstep in Hfold;
        [rewrite queryStep_thrown in Hfold; discriminate |].
      destruct (decide (k = key)) as [-> | Hk].
      * rewrite (bool_decide_eq_true_2 (key = key)) by reflexivity.
        eapply IH; [| exact Hfold].
        rewrite getProp_setProp_eq, (Hstored Hkey). reflexivity.
      * rewrite (bool_decide_eq_false_2 _ Hk).
        eapply IH; [| exact Hfold]. now rewrite getProp_setProp_ne by congruence.
Qed.

Lemma rebuilt_bounds query query' :
  fold_left (queryStep toNumber validRegExp) query (inr []) = inr query' ->
  getProp "min" query' = (fun v => FNumber (toNumber v)) <$> lastValue "min" query /\
  getProp "max" query' = (fun v => FNumber (toNumber v)) <$> lastValue "max" query.
Proof.
  intros Hfold. split.
  - exact (rebuilt_bound "min" (or_introl eq_refl) query [] None query' eq_refl Hfold).
  - exact (rebuilt_bound "max" (or_intror eq_refl) query [] None query' eq_refl Hfold).
Qed.

(** X25. With [min] and [max] both given as numbers that are not zero,
    every product the listing returns has its price between them. *)
Theorem getProducts_price_window :
  forall (M : gmap ObjectId Doc) query a b lo hi n data,
    lastValue "min" query = Some a -> toNumber a = Some lo -> lo <> 0 ->
    lastValue "max" query = Some b -> toNumber b = Some hi -> hi <> 0 ->
    getProducts holds price toNumber validRegExp castError M query
    = Respond 200 (Listing n data) ->
    Forall (fun product => lo <= price product <= hi) data.
Proof.
  intros M query a b lo hi n data Hmin Ha Hlo Hmax Hb Hhi. unfold getProducts.
  destruct (fold_left _ query (inr [])) as [e | query'] eqn:Hfold; [discriminate |].
  destruct (rebuilt_bounds query query' Hfold) as [Hqmin Hqmax].
  destruct (findCast holds castError query' M) as [e | documents]; [discriminate |].
  rewrite Hqmin, Hqmax, Hmin, Hmax. simpl. rewrite Ha, Hb. simpl.
  destruct (Z.eqb_spec lo 0); [contradiction |].
  destruct (Z.eqb_spec hi 0); [contradiction |].
  intros [= _ <-]. apply Forall_forall. intros product Hin.
  apply list_elem_of_In, List.filter_In in Hin as [_ Hin].
  apply andb_true_iff in Hin as [H1 H2]. lia.
Qed.

(** X26. A bound of 0 (or one that is not a number) switches the price
    window off: the listing is then everything the database matched, the
    other bound notwithstanding. *)
Theorem getProducts_zero_bound_disables_window :
  forall (M : gmap ObjectId Doc) query a n data,
    (lastValue "min" query = Some a \/ lastValue "max" query = Some a) ->
    (toNumber a = Some 0 \/ toNumber a = None) ->
    getProducts holds price toNumber validRegExp castError M query
    = Respond 200 (Listing n data) ->
    exists query',
      fold_left (queryStep toNumber validRegExp) query (inr []) = inr query' /\
      data = find holds query' M.
Proof.
  intros M query a n data Hbound Hzero. unfold getProducts.
  destruct (fold_left _ query (inr [])) as [e | query'] eqn:Hfold; [discriminate |].
  destruct (rebuilt_bounds query query' Hfold) as [Hqmin Hqmax].
  exists query'. split; [reflexivity |].
  destruct (findCast_outcome holds castError query' M) as [Hfind | [m Hfind]];
    rewrite Hfind in H; [| discriminate].
  assert (truthyBound (getProp "min" query') = None
          \/ truthyBound (getProp "max" query') = None) as Hoff.
  { destruct Hbound as [Hb | Hb]; [left; rewrite Hqmin | right; rewrite Hqmax];
      rewrite Hb; simpl; destruct Hzero as [-> | ->]; reflexivity. }
  destruct Hoff as [Hoff | Hoff]; rewrite Hoff in H;
    [| destruct (truthyBound (getProp "min" query'))]; now injection H as _ <-.
Qed.

End Products.

Lemma getProducts_blank_witness :
  let M : gmap ObjectId Z := <[ product1 := 5 ]> {[ product2 := 50 ]} in
  getProducts (fun _ _ _ => true) (fun d => d) (fun _ => None) (fun _ => true) (fun _ _ => None)
              M [("title", "phone"); ("brand", ""); ("min", "10")]
  = getProducts (fun _ _ _ => true) (fun d => d) (fun _ => None) (fun _ => true) (fun _ _ => None)
                M [("title", "phone"); ("min", "10")].
Proof.
  cbv zeta.
  apply (getProducts_ignores_blank_parameters (fun _ _ _ => true) (fun d => d)
           (fun _ => None) (fun _ => true) (fun _ _ => None)
           (<[ product1 := 5 ]> {[ product2 := 50 ]})
           [("title", "phone")] [("min", "10")] "brand").
  apply (bool_decide_unpack _). vm_compute. exact I.
Defined.

Lemma getProducts_price_window_witness :
  let M : gmap ObjectId Z := <[ product1 := 5 ]> (<[ product2 := 50 ]> {[ product3 := 500 ]}) in
  let toNumber := fun v : string => if bool_decide (v = "10") then Some 10 else Some 100 in
  exists n data,
    getProducts (fun _ _ _ => true) (fun d => d) toNumber (fun _ => true) (fun _ _ => None) M
                [("min", "10"); ("max", "100")]
    = Respond 200 (Listing n data) /\
    Forall (fun product => 10 <= product <= 100) data.
Proof.
  cbv zeta. eexists _, _. split; [vm_compute; reflexivity |].
  apply (getProducts_price_window (fun _ _ _ => true) (fun d => d)
           (fun v => if bool_decide (v = "10") then Some 10 else Some 100) (fun _ => true)
           (fun _ _ => None)
           (<[ product1 := 5 ]> (<[ product2 := 50 ]> {[ product3 := 500 ]}))
           [("min", "10"); ("max", "100")] "10" "100" 10 100 1%nat [50]);
    first [reflexivity | discriminate | vm_compute; reflexivity].
Defined.

Lemma getProducts_zero_bound_witness :
  let M : gmap ObjectId Z := <[ product1 := 5 ]> (<[ product2 := 50 ]> {[ product3 := 500 ]}) in
  let toNumber := fun v : string => if bool_decide (v = "0") then Some 0 else Some 100 in
  exists n data query',
    getProducts (fun _ _ _ => true) (fun d => d) toNumber (fun _ => true) (fun _ _ => None) M
                [("min", "0"); ("max", "100")]
    = Respond 200 (Listing n data) /\
    data = find (fun _ _ _ => true) query' M /\
    n = 3%nat.
Proof.
  cbv zeta.
  destruct (getProducts_zero_bound_disables_window (fun _ _ _ => true) (fun d => d)
              (fun v => if bool_decide (v = "0") then Some 0 else Some 100) (fun _ => true)
              (fun _ _ => None)
              (<[ product1 := 5 ]> (<[ product2 := 50 ]> {[ product3 := 500 ]}))
              [("min", "0"); ("max", "100")] "0" 3%nat
              (find (fun _ _ _ => true) [] (<[ product1 := 5 ]> (<[ product2 := 50 ]> {[ product3 := 500 ]}))))
    as (query' & _ & Hdata).
  - left. reflexivity.
  - left. reflexivity.
  - vm_compute. reflexivity.
  - eexists _, _, query'. split; [vm_compute; reflexivity |]. split; [| reflexivity].
    rewrite <- Hdata. vm_compute. reflexivity.
Defined.

(** ** Reading back what was written *)

Section Crud.
Context {Doc : Type}.
Variable holds : string -> FilterValue -> Doc -> bool.
Variable applyUpdate : list (string * FilterValue) -> Doc -> Doc.
Variable resave : Doc -> Doc.
Variable refuses : ObjectId -> list (string * FilterValue) -> gmap ObjectId Doc -> option Refusal.

(** X27. Deleting is final and local: after deleting an identifier from
    the subcategories, brands, users or products, getting it and deleting
    it again both answer 404 with the identifier, and every other
    identifier resolves as before; deleting a document that exists answers
    204 and leaves one document less. *)
Theorem delete_then_get_is_not_found :
  forall (M : gmap ObjectId Doc) id,
    Forall (fun handlers : (gmap ObjectId Doc -> ObjectId -> Outcome (Body Doc)) *
                           (gmap ObjectId Doc -> ObjectId
                            -> Outcome (Body Doc) * gmap ObjectId Doc) =>
              let (get, del) := handlers in
              notFoundNaming id (get (snd (del M id)) id) /\
              notFoundNaming id (fst (del (snd (del M id)) id)) /\
              (forall other, other <> id -> snd (del M id) !! other = M !! other) /\
              (forall d, M !! id = Some d ->
                         fst (del M id) = Respond 204 NoBody /\
                         S (size (snd (del M id))) = size M))
           [ (getSubCategory, deleteSubCategory); (getBrand, deleteBrand);
             (getUser, deleteUser); (getProduct, deleteProduct) ].
Proof.
  intros M id.
  assert (delete id M !! id = None) as Hgone by apply lookup_delete_eq.
  repeat (first [apply Forall_nil_2 | apply Forall_cons_2]);
    unfold getSubCategory, deleteSubCategory, getBrand, deleteBrand, getUser, deleteUser,
           getProduct, deleteProduct, findById, findByIdAndDelete;
    (assert (snd (match M !! id with
                  | Some _ => (@Respond (Body Doc) 204 NoBody, delete id M)
                  | None => (Next (ApiError ("No document for this id " +:+ id) 404),
                             delete id M)
                  end) = delete id M) as -> by (destruct (M !! id); reflexivity));
    rewrite Hgone;
    (split; [apply notFound_message |]);
    (split; [apply notFound_message |]);
    (split; [intros other Hother; now apply lookup_delete_ne |]);
    intros d Hd; rewrite Hd; (split; [reflexivity |]);
    rewrite map_size_delete, Hd;
    (assert (size M <> 0%nat) by (intros H0; apply map_size_empty_inv in H0; subst M;
                                  rewrite lookup_empty in Hd; discriminate));
    simpl; lia.
Qed.


(** X29. The unfiltered listings are complete: the categories, brands and
    users answered are all the documents of the collection, [results]
    being its size. *)
Theorem unfiltered_listing_is_complete :
  forall (M : gmap ObjectId Doc),
    Forall (fun reply : Outcome (Body Doc) =>
              exists data,
                reply = Respond 200 (Listing (size M) data) /\
                forall d, d ∈ data <-> exists id, M !! id = Some d)
           [ getCategories holds M; getBrands holds M; getUsers holds M ].
Proof.
  intros M.
  assert (find holds [] M = List.map snd (map_to_list M)) as Hall.
  { unfold find. simpl. induction (List.map snd (map_to_list M)) as [| x l IH];
      simpl; congruence. }
  assert (length (List.map snd (map_to_list M)) = size M) as Hlen
    by (rewrite length_map; apply length_map_to_list).
  repeat (first [apply Forall_nil_2 | apply Forall_cons_2]);
    unfold getCategories, getBrands, getUsers; rewrite Hall, Hlen;
    (eexists; split; [reflexivity |]);
    intros d; rewrite list_elem_of_fmap; (split;
      [intros ([id d'] & -> & Hin); exists id; now apply elem_of_map_to_list
      |intros (id & Hid); exists (id, d); split;
         [reflexivity | now apply elem_of_map_to_list]]).
Qed.

End Crud.


Lemma delete_then_get_witness :
  let M : gmap ObjectId string := {[ brand1 := "Acme" ]} in
  fst (deleteBrand M brand1) = Respond 204 NoBody /\
  notFoundNaming brand1 (getBrand (snd (deleteBrand M brand1)) brand1).
Proof.
  cbv zeta.
  pose proof (delete_then_get_is_not_found
                ({[ brand1 := "Acme" ]} : gmap ObjectId string) brand1) as Hall.
  apply Forall_cons in Hall as [_ Hall].
  apply Forall_cons in Hall as [(Hget & _ & _ & Hexists) _].
  split; [| exact Hget].
  apply (Hexists "Acme"). apply lookup_singleton_eq.
Defined.

End CatalogFacts.
